(** * ID-card fraud detection agent: mapper, dispatch layer, router and loop

    A shallow embedding of [src/main.py] and [src/tools/database_tools.py].
    Python values, dictionaries and strings are modelled first, then the
    persistence tool [insert_id_card_tool], then the LangGraph workflow
    ([agent_node], [tool_node], [router], the compiled graph and the
    [upload_file] driver), and finally the properties of the specification. *)

From Stdlib Require Import String Ascii List Bool Arith ZArith Lia DecimalString.
Import ListNotations.
Open Scope string_scope.
Open Scope list_scope.
Set Warnings "-register-all".

(* ===================================================================== *)
(** ** Python values *)
(* ===================================================================== *)

Module Py.

(** The values that tool-call arguments and tool results are made of.
    Dictionaries keep their insertion order, as Python's do.  A float is
    kept only up to whether it is non-zero, which is all the code observes
    of one (its truth value). *)
Inductive pyval : Type :=
| PNone
| PBool (b : bool)
| PInt (z : Z)
| PFloat (nonzero : bool)
| PStr (s : string)
| PList (l : list pyval)
| PDict (d : list (string * pyval)).

Definition dict : Type := list (string * pyval).

(** [bool(v)], the truth value Python's [if v] and [not v] test. *)
Definition truthy (v : pyval) : bool :=
  match v with
  | PNone => false
  | PBool b => b
  | PInt z => negb (Z.eqb z 0)
  | PFloat nz => nz
  | PStr s => negb (String.eqb s "")
  | PList l => match l with [] => false | _ => true end
  | PDict d => match d with [] => false | _ => true end
  end.

(** [type(v).__name__], as it appears in an AttributeError message. *)
Definition type_name (v : pyval) : string :=
  match v with
  | PNone => "NoneType"
  | PBool _ => "bool"
  | PInt _ => "int"
  | PFloat _ => "float"
  | PStr _ => "str"
  | PList _ => "list"
  | PDict _ => "dict"
  end.

(** [k in d] and [d[k]]: [None] when the key is not there. *)
Fixpoint lookup (d : dict) (k : string) : option pyval :=
  match d with
  | [] => None
  | (k', v) :: rest => if String.eqb k' k then Some v else lookup rest k
  end.

(** [d.get(k)]: Python's [None] when the key is not there. *)
Definition get (d : dict) (k : string) : pyval :=
  match lookup d k with
  | Some v => v
  | None => PNone
  end.

(** [d[k] = v]: overwrite in place, or append a new key. *)
Fixpoint set (d : dict) (k : string) (v : pyval) : dict :=
  match d with
  | [] => [(k, v)]
  | (k', v') :: rest =>
      if String.eqb k' k then (k, v) :: rest else (k', v') :: set rest k v
  end.

(** *** Strings

    A character stands for a code point below 256. *)

(** [c.isspace()] on that range: TAB..CR, FS..US, space, NEL and NBSP. *)
Definition is_space (c : ascii) : bool :=
  let n := nat_of_ascii c in
  (((9 <=? n) && (n <=? 13)) || ((28 <=? n) && (n <=? 32))
   || (n =? 133) || (n =? 160))%nat.

Fixpoint lstrip (s : string) : string :=
  match s with
  | EmptyString => EmptyString
  | String c rest => if is_space c then lstrip rest else s
  end.

Fixpoint rstrip (s : string) : string :=
  match s with
  | EmptyString => EmptyString
  | String c rest =>
      match rstrip rest with
      | EmptyString => if is_space c then EmptyString else String c EmptyString
      | kept => String c kept
      end
  end.

(** [s.strip()] *)
Definition strip (s : string) : string := rstrip (lstrip s).

(** [s.split(sep)] for a one-character separator: never the empty list. *)
Fixpoint split (sep : ascii) (s : string) : list string :=
  match s with
  | EmptyString => [EmptyString]
  | String c rest =>
      if Ascii.eqb c sep then EmptyString :: split sep rest
      else match split sep rest with
           | piece :: pieces => String c piece :: pieces
           | [] => [String c EmptyString]
           end
  end.

(** [sep.join(pieces)] *)
Definition join (sep : string) (pieces : list string) : string :=
  String.concat sep pieces.

(** Whether the character occurs in the string. *)
Fixpoint contains (c : ascii) (s : string) : bool :=
  match s with
  | EmptyString => false
  | String c' rest => Ascii.eqb c' c || contains c rest
  end.

(** The text before the first occurrence of [c] (all of it when there is
    none) and the text after it (empty when there is none). *)
Fixpoint before_first (c : ascii) (s : string) : string :=
  match s with
  | EmptyString => EmptyString
  | String c' rest =>
      if Ascii.eqb c' c then EmptyString else String c' (before_first c rest)
  end.

Fixpoint after_first (c : ascii) (s : string) : string :=
  match s with
  | EmptyString => EmptyString
  | String c' rest => if Ascii.eqb c' c then rest else after_first c rest
  end.

(** *** Exceptions and results *)

Inductive exn : Type :=
| AttributeError (msg : string)
| IndexError
| ValueError (msg : string)
| SyntaxError
| TypeError
| MemoryError
| RecursionError
| ValidationError
| UnboundLocalError
| GraphRecursionError
| RuntimeError (msg : string).

Inductive result (A : Type) : Type :=
| Returns (a : A)
| Raises (e : exn).
Arguments Returns {A} a.
Arguments Raises {A} e.

Definition no_attribute (v : pyval) (attr : string) : exn :=
  AttributeError ("'" ++ type_name v ++ "' object has no attribute '" ++ attr ++ "'").

End Py.
Import Py.

Example split_two : split "," "Jakarta, 01-01-1990" = ["Jakarta"; " 01-01-1990"].
Proof. reflexivity. Qed.

Example split_none : split "," "Jakarta" = ["Jakarta"].
Proof. reflexivity. Qed.

Example split_edges : split " " " a  b " = [""; "a"; ""; "b"; ""].
Proof. reflexivity. Qed.

Example strip_both : strip "  01-01-1990 " = "01-01-1990".
Proof. reflexivity. Qed.

(* ===================================================================== *)
(** ** The world outside the program *)
(* ===================================================================== *)

(** What one use of the SQLite file by [insert_id_card_tool] comes to:
    [sqlite3.connect], [cursor.execute] of the INSERT and [conn.commit]. *)
Inductive insert_outcome : Type :=
| Inserted
| IntegrityError
| SqliteError (msg : string)
| ConnectError (msg : string).

(** The same for the SELECT of [check_duplicate_nik_tool]. *)
Inductive select_outcome : Type :=
| RowFound
| NoRow
| SelectError (msg : string)
| SelectConnectError (msg : string).

(** One message of the conversation, as langchain_core has them. A tool call
    is the dictionary [{'name': .., 'args': .., 'id': ..}]; [tc_args] is
    [None] when the key ['args'] is not in it. *)
Record ToolCall : Type := {
  tc_name : string;
  tc_args : option dict;
  tc_id : string
}.

Inductive Message : Type :=
| HumanMessage (content : string)
| AIMessage (content : string) (tool_calls : list ToolCall)
| ToolMessage (content : string) (tool_call_id : string).

(** The collaborators the program calls and does not define: the Python
    runtime ([ast.literal_eval], [str]), pydantic's validation of a tool
    call's arguments against the tool's [args_schema], the reasoning engine,
    the vision pipeline behind [analyze_id_card_tool], the SMTP server behind
    [notify_fraud_tool] and the SQLite file.  [W] is the state of that
    outside world; every call may read and change it. *)
Record Env (W : Type) : Type := {
  literal_eval : string -> result pyval;
  py_str : pyval -> string;
  exn_str : exn -> string;
  validate : string -> dict -> result dict;
  llm_invoke : list Message -> W -> result (string * list ToolCall) * W;
  analyze_id_card : dict -> W -> pyval * W;
  notify_fraud : dict -> W -> pyval * W;
  sqlite_insert : dict -> W -> insert_outcome * W;
  sqlite_select : pyval -> W -> select_outcome * W
}.
Arguments literal_eval {W} _ _.
Arguments py_str {W} _ _.
Arguments exn_str {W} _ _.
Arguments validate {W} _ _ _.
Arguments llm_invoke {W} _ _ _.
Arguments analyze_id_card {W} _ _ _.
Arguments notify_fraud {W} _ _ _.
Arguments sqlite_insert {W} _ _ _.
Arguments sqlite_select {W} _ _ _.

(* ===================================================================== *)
(** ** src/tools/database_tools.py *)
(* ===================================================================== *)

Module DatabaseTools.

Definition error_payload (msg : string) : dict :=
  [("status", PStr "error"); ("error", PStr msg)].

(** [key_mapping]: extraction field name to database column. *)
Definition key_mapping : list (string * string) :=
  [ ("NIK", "nik");
    ("Nama", "nama");
    ("Jenis Kelamin", "jenis_kelamin");
    ("Gol. Darah", "gol_darah");
    ("Alamat", "alamat");
    ("RT/RW", "rt_rw");
    ("Kel/Desa", "kel_desa");
    ("Kecamatan", "kecamatan");
    ("Agama", "agama");
    ("Status Perkawinan", "status_perkawinan");
    ("Kewarganegaraan", "kewarganegaraan");
    ("Berlaku Hingga", "berlaku_hingga");
    ("Place and Date of Creation", "place_of_creation") ].

(** The loop [for ai_key, db_key in key_mapping.items()]. *)
Definition rename (data : dict) : dict :=
  fold_left (fun db_record km => set db_record (snd km) (get data (fst km)))
            key_mapping [].

(** The [try] block on ['Tempat/Tgl Lahir']; [None] is its [except]
    branch, taken when the value is true but has no [split]. *)
Definition split_birth (data db_record : dict) : option dict :=
  match lookup data "Tempat/Tgl Lahir" with
  | Some (PStr s) =>
      if truthy (PStr s) then
        let parts := split "," s in
        let db_record := set db_record "tempat_lahir" (PStr (strip (hd "" parts))) in
        if (1 <? length parts)%nat
        then Some (set db_record "tanggal_lahir" (PStr (strip (nth 1 parts ""))))
        else Some (set db_record "tanggal_lahir" PNone)
      else Some db_record
  | Some v => if truthy v then None else Some db_record
  | None => Some db_record
  end.

(** The block on [place_of_creation], which no [try] guards. *)
Definition split_creation (db_record : dict) : result dict :=
  match get db_record "place_of_creation" with
  | PStr s =>
      if truthy (PStr s) then
        let parts := split " " s in
        let db_record := set db_record "place_of_creation" (PStr (strip (hd "" parts))) in
        if (1 <? length parts)%nat
        then Returns (set db_record "date_of_creation"
                          (PStr (strip (join " " (tl parts)))))
        else Returns db_record
      else Returns db_record
  | v => if truthy v then Raises (no_attribute v "split") else Returns db_record
  end.

Definition required_db_keys : list string :=
  [ "nik"; "nama"; "tempat_lahir"; "tanggal_lahir"; "jenis_kelamin"; "alamat";
    "rt_rw"; "kel_desa"; "kecamatan"; "agama"; "status_perkawinan";
    "kewarganegaraan"; "berlaku_hingga" ].

(** [[key for key in required_db_keys if not db_record.get(key)]] *)
Definition missing_keys (db_record : dict) : list string :=
  filter (fun key => negb (truthy (get db_record key))) required_db_keys.

Definition missing_message (missing : list string) : string :=
  "After parsing, required fields are still missing: " ++ join ", " missing.

(** The function up to the database: rename, split, validate. *)
Inductive mapped : Type :=
| Record_ (db_record : dict)
| Rejected (payload : dict)
| Crashed (e : exn).

Definition map_record (data : dict) : mapped :=
  match split_birth data (rename data) with
  | None => Rejected (error_payload "Failed to parse 'Tempat/Tgl Lahir' field.")
  | Some db_record =>
      match split_creation db_record with
      | Raises e => Crashed e
      | Returns db_record =>
          match missing_keys db_record with
          | [] => Record_ db_record
          | missing => Rejected (error_payload (missing_message missing))
          end
      end
  end.

Section WithEnv.
Context {W : Type} (env : Env W).

(** The text an f-string puts for a value. *)
Definition fmt (v : pyval) : string :=
  match v with
  | PStr s => s
  | _ => py_str env v
  end.

(** [check_duplicate_nik_tool]: when [sqlite3.connect] raises, [conn] is
    unbound in the [finally] clause. *)
Definition check_duplicate_nik_tool (nik : pyval) (w : W) : result dict * W :=
  match sqlite_select env nik w with
  | (RowFound, w') => (Returns [("status", PStr "duplicate"); ("nik", nik)], w')
  | (NoRow, w') => (Returns [("status", PStr "not_found"); ("nik", nik)], w')
  | (SelectError msg, w') => (Returns (error_payload msg), w')
  | (SelectConnectError _, w') => (Raises UnboundLocalError, w')
  end.

(** [insert_id_card_tool] *)
Definition insert_id_card_tool (data : dict) (w : W) : result dict * W :=
  match map_record data with
  | Crashed e => (Raises e, w)
  | Rejected payload => (Returns payload, w)
  | Record_ db_record =>
      match sqlite_insert env db_record w with
      | (Inserted, w') =>
          (Returns [("status", PStr "success");
                    ("message", PStr ("Record for NIK " ++ fmt (get db_record "nik")
                                      ++ " added successfully."))], w')
      | (IntegrityError, w') =>
          (Returns (error_payload "This NIK already exists in the database."), w')
      | (SqliteError msg, w') => (Returns (error_payload msg), w')
      | (ConnectError _, w') => (Raises UnboundLocalError, w')
      end
  end.

End WithEnv.

End DatabaseTools.
Import DatabaseTools.

(* ===================================================================== *)
(** ** src/main.py *)
(* ===================================================================== *)

Module Main.

(** [AgentState], the dictionary a node is called with.  The key
    ['analysis_result'] may be absent ([None] here), or hold Python's [None]
    or a verdict. *)
Record AgentState : Type := {
  messages : list Message;
  analysis_result : option pyval
}.

(** The dictionary a node returns: the keys it has. *)
Record Update : Type := {
  upd_messages : option (list Message);
  upd_analysis_result : option pyval
}.

(** The nodes of the graph; [END] is LangGraph's. *)
Inductive Node : Type := Agent | Tools | END.

Definition node_name (n : Node) : string :=
  match n with
  | Agent => "agent"
  | Tools => "tools"
  | END => "__end__"
  end.

(** [call.get('args', {})] *)
Definition tool_args (call : ToolCall) : dict :=
  match tc_args call with
  | Some args => args
  | None => []
  end.

(** [tool_args['data'] = v], which writes into the call it came from. *)
Definition set_data (call : ToolCall) (v : pyval) : ToolCall :=
  {| tc_name := tc_name call;
     tc_args := Some (set (tool_args call) "data" v);
     tc_id := tc_id call |}.

Definition malformed_data_message : string :=
  "Error: The 'data' argument was a malformed string and could not be parsed.".

(** What [except (ValueError, SyntaxError)] catches; pydantic's
    ValidationError is a ValueError. *)
Definition value_or_syntax_error (e : exn) : bool :=
  match e with
  | ValueError _ | SyntaxError | ValidationError => true
  | _ => false
  end.

Definition default_response : string := "Agent did not produce a final response.".

Definition recursion_limit : nat := 15.

(** [router]: [state.get('analysis_result', {}).get('status')] and the two
    tests on it. *)
Definition router (state : AgentState) : result string :=
  let verdict := match analysis_result state with
                 | Some v => v
                 | None => PDict []
                 end in
  match verdict with
  | PDict d =>
      match get d "status" with
      | PStr status =>
          if String.eqb status "success" then Returns "check_duplicate_nik_tool"
          else if String.eqb status "potential_fraud"
                  || String.eqb status "image_quality_failure"
               then Returns "notify_fraud_tool"
               else Returns "agent"
      | _ => Returns "agent"
      end
  | v => Raises (no_attribute v "get")
  end.

(** [add_messages], the reducer of the channel [messages].  Every message
    this program writes is a new one (it has no id yet, or the fresh one of
    its run), so the reducer appends. *)
Definition add_messages (left right : list Message) : list Message :=
  left ++ right.

(** How LangGraph writes a node's returned dictionary to the channels: a
    key that is not returned leaves its channel as it was. *)
Definition write (chan : AgentState) (upd : Update) : AgentState :=
  {| messages := match upd_messages upd with
                 | Some ms => add_messages (messages chan) ms
                 | None => messages chan
                 end;
     analysis_result := match upd_analysis_result upd with
                        | Some v => Some v
                        | None => analysis_result chan
                        end |}.

(** The lambda of [add_conditional_edges] on ["agent"]. *)
Definition after_agent (state : AgentState) : result Node :=
  match last (map Some (messages state)) None with
  | Some (AIMessage _ calls) =>
      match calls with
      | [] => Returns END
      | _ => Returns Tools
      end
  | Some _ => Raises (AttributeError "object has no attribute 'tool_calls'")
  | None => Raises IndexError
  end.

(** The message objects of the state with the calls of the last one
    replaced: what the state looks like after [tool_node] has written into
    the arguments of those calls. *)
Definition with_last_calls (ms : list Message) (calls : list ToolCall) : list Message :=
  match last (map Some ms) None with
  | Some (AIMessage content _) => removelast ms ++ [AIMessage content calls]
  | _ => ms
  end.

Section WithEnv.
Context {W : Type} (env : Env W).

(** A langchain tool: its name and [invoke], which validates the
    arguments against the schema and then calls the function. *)
Record Tool : Type := {
  name : string;
  invoke : dict -> W -> result pyval * W
}.

Definition validated (tool : string) (args : dict)
           (body : dict -> W -> result pyval * W) (w : W) : result pyval * W :=
  match validate env tool args with
  | Returns params => body params w
  | Raises e => (Raises e, w)
  end.

Definition as_value (r : result dict * W) : result pyval * W :=
  match r with
  | (Returns d, w) => (Returns (PDict d), w)
  | (Raises e, w) => (Raises e, w)
  end.

Definition analyze_id_card_tool : Tool :=
  {| name := "analyze_id_card_tool";
     invoke := fun args =>
       validated "analyze_id_card_tool" args
         (fun params w => let (out, w') := analyze_id_card env params w in
                          (Returns out, w')) |}.

Definition check_duplicate_nik_tool : Tool :=
  {| name := "check_duplicate_nik_tool";
     invoke := fun args =>
       validated "check_duplicate_nik_tool" args
         (fun params w =>
            as_value (DatabaseTools.check_duplicate_nik_tool env (get params "nik") w)) |}.

Definition insert_id_card_tool : Tool :=
  {| name := "insert_id_card_tool";
     invoke := fun args =>
       validated "insert_id_card_tool" args
         (fun params w =>
            match get params "data" with
            | PDict data => as_value (DatabaseTools.insert_id_card_tool env data w)
            | _ => (Raises ValidationError, w)
            end) |}.

Definition notify_fraud_tool : Tool :=
  {| name := "notify_fraud_tool";
     invoke := fun args =>
       validated "notify_fraud_tool" args
         (fun params w => let (out, w') := notify_fraud env params w in
                          (Returns out, w')) |}.

Definition tools : list Tool :=
  [analyze_id_card_tool; check_duplicate_nik_tool; insert_id_card_tool;
   notify_fraud_tool].

(** [next((t for t in tools if t.name == tool_name), None)] *)
Definition selected_tool (tool_name : string) : option Tool :=
  find (fun t => String.eqb (name t) tool_name) tools.

(** [agent_node] *)
Definition agent_node (state : AgentState) (w : W) : result Update * W :=
  match llm_invoke env (messages state) w with
  | (Returns (content, calls), w') =>
      (Returns {| upd_messages := Some [AIMessage content calls];
                  upd_analysis_result := None |}, w')
  | (Raises e, w') => (Raises e, w')
  end.

(** The block between FINAL FIX STARTS and ENDS, for one call. *)
Inductive repaired : Type :=
| Untouched
| Parsed (v : pyval)
| Malformed
| Escaped (e : exn).

Definition repair (call : ToolCall) : repaired :=
  if String.eqb (tc_name call) "insert_id_card_tool" then
    match get (tool_args call) "data" with
    | PStr s =>
        match literal_eval env s with
        | Returns v => Parsed v
        | Raises e => if value_or_syntax_error e then Malformed else Escaped e
        end
    | _ => Untouched
    end
  else Untouched.

(** What the [for] loop of [tool_node] leaves behind: [tool_outputs] (or
    the exception that ended the loop), the calls as the loop has
    rewritten them, [state['analysis_result']] and the world. *)
Record Dispatched : Type := {
  outputs : result (list Message);
  calls_after : list ToolCall;
  analysis_after : option pyval;
  world_after : W
}.

Definition emit (m : Message) (call : ToolCall) (rest : Dispatched) : Dispatched :=
  {| outputs := match outputs rest with
                | Returns ms => Returns (m :: ms)
                | Raises e => Raises e
                end;
     calls_after := call :: calls_after rest;
     analysis_after := analysis_after rest;
     world_after := world_after rest |}.

Definition stop (e : exn) (calls : list ToolCall) (analysis : option pyval) (w : W)
  : Dispatched :=
  {| outputs := Raises e; calls_after := calls;
     analysis_after := analysis; world_after := w |}.

Fixpoint dispatch (calls : list ToolCall) (analysis : option pyval) (w : W)
  : Dispatched :=
  match calls with
  | [] => {| outputs := Returns []; calls_after := [];
             analysis_after := analysis; world_after := w |}
  | call :: rest =>
      let invoke_selected (call : ToolCall) : Dispatched :=
        match selected_tool (tc_name call) with
        | None =>
            stop (ValueError ("Tool '" ++ tc_name call ++ "' not found."))
                 (call :: rest) analysis w
        | Some tool =>
            match invoke tool (tool_args call) w with
            | (Raises e, w') => stop e (call :: rest) analysis w'
            | (Returns output, w') =>
                let analysis' :=
                  if String.eqb (tc_name call) "analyze_id_card_tool"
                  then Some output else analysis in
                emit (ToolMessage (py_str env output) (tc_id call)) call
                     (dispatch rest analysis' w')
            end
        end in
      match repair call with
      | Malformed =>
          emit (ToolMessage malformed_data_message (tc_id call)) call
               (dispatch rest analysis w)
      | Escaped e => stop e (call :: rest) analysis w
      | Parsed v => invoke_selected (set_data call v)
      | Untouched => invoke_selected call
      end
  end.

(** [tool_node]: the returned dictionary (or the exception), the state
    dictionary as the node leaves it, and the world. *)
Definition tool_node (state : AgentState) (w : W)
  : result Update * AgentState * W :=
  match last (map Some (messages state)) None with
  | Some (AIMessage _ calls) =>
      let d := dispatch calls (analysis_result state) w in
      (match outputs d with
       | Returns tool_outputs =>
           Returns {| upd_messages := Some tool_outputs;
                      upd_analysis_result := None |}
       | Raises e => Raises e
       end,
       {| messages := with_last_calls (messages state) (calls_after d);
          analysis_result := analysis_after d |},
       world_after d)
  | Some _ =>
      (Raises (AttributeError "object has no attribute 'tool_calls'"), state, w)
  | None => (Raises IndexError, state, w)
  end.

(** One superstep of the compiled graph from [node].  The node is called
    with the values of the channels; what it returns is written to them.
    The messages are the objects the node was given, so what [tool_node]
    wrote into their calls stays; the dictionary itself is the node's
    own, so a key the node set on it is gone once the node has returned.
    From ["tools"] the edge goes to ["agent"]. *)
Definition step (node : Node) (chan : AgentState) (w : W)
  : result (Update * Node * AgentState) * W :=
  match node with
  | Agent =>
      match agent_node chan w with
      | (Returns upd, w') =>
          let chan' := write chan upd in
          match after_agent chan' with
          | Returns next => (Returns (upd, next, chan'), w')
          | Raises e => (Raises e, w')
          end
      | (Raises e, w') => (Raises e, w')
      end
  | Tools =>
      match tool_node chan w with
      | (Returns upd, local, w') =>
          let chan' := write {| messages := messages local;
                                analysis_result := analysis_result chan |} upd in
          (Returns (upd, Agent, chan'), w')
      | (Raises e, _, w') => (Raises e, w')
      end
  | END => (Returns ({| upd_messages := None; upd_analysis_result := None |},
                     END, chan), w)
  end.

(** The body of [for event in events] in [upload_file]. *)
Definition on_event (node : Node) (upd : Update) (final_response : string) : string :=
  match node, upd_messages upd with
  | Agent, Some ms =>
      match last (map Some ms) None with
      | Some (AIMessage content []) =>
          if truthy (PStr content) then content else final_response
      | _ => final_response
      end
  | _, _ => final_response
  end.

(** What [upload_file] has when it leaves its [try]: the response, the
    nodes that ran, and the world. *)
Record Outcome : Type := {
  response : string;
  ran : list Node;
  world : W
}.

Definition ran_also (node : Node) (o : Outcome) : Outcome :=
  {| response := response o; ran := node :: ran o; world := world o |}.

Definition failed (e : exn) (w : W) : Outcome :=
  {| response := "An error occurred: " ++ exn_str env e; ran := []; world := w |}.

(** [graph.stream] consumed by the loop of [upload_file]: at most [limit]
    supersteps, then LangGraph raises its GraphRecursionError. *)
Fixpoint stream (limit : nat) (node : Node) (chan : AgentState)
         (final_response : string) (w : W) : Outcome :=
  match node with
  | END => {| response := final_response; ran := []; world := w |}
  | _ =>
      match limit with
      | O => failed GraphRecursionError w
      | S limit' =>
          match step node chan w with
          | (Returns (upd, next, chan'), w') =>
              ran_also node
                (stream limit' next chan' (on_event node upd final_response) w')
          | (Raises e, w') => ran_also node (failed e w')
          end
      end
  end.

(** [upload_file] from the initial message on; [prompt] is the text of
    that message. *)
Definition upload_file (prompt : string) (w : W) : Outcome :=
  stream recursion_limit Agent
         (write {| messages := []; analysis_result := None |}
                {| upd_messages := Some [HumanMessage prompt];
                   upd_analysis_result := None |})
         default_response w.

End WithEnv.

End Main.
Import Main.

(* ===================================================================== *)
(** ** A concrete world for the examples *)
(* ===================================================================== *)

Module Demo.

(** The world is the table [id_cards]: its rows, oldest first. *)
Definition World : Type := list dict.

(** The columns the INSERT binds by name, and those that
    [database_setup.py] declares NOT NULL. *)
Definition bound_columns : list string :=
  [ "nik"; "nama"; "tempat_lahir"; "tanggal_lahir"; "jenis_kelamin"; "gol_darah";
    "alamat"; "rt_rw"; "kel_desa"; "kecamatan"; "agama"; "status_perkawinan";
    "kewarganegaraan"; "berlaku_hingga"; "place_of_creation"; "date_of_creation" ].

Definition not_null_columns : list string :=
  [ "nik"; "nama"; "tempat_lahir"; "tanggal_lahir"; "jenis_kelamin"; "alamat";
    "rt_rw"; "kel_desa"; "kecamatan"; "agama"; "status_perkawinan";
    "kewarganegaraan"; "berlaku_hingga" ].

Definition is_none (v : pyval) : bool :=
  match v with PNone => true | _ => false end.

Definition same_text (a b : pyval) : bool :=
  match a, b with
  | PStr x, PStr y => String.eqb x y
  | _, _ => false
  end.

Definition bindable (v : pyval) : bool :=
  match v with PList _ | PDict _ => false | _ => true end.

(** The INSERT on that table: every named parameter must be supplied and
    of a type SQLite takes, NOT NULL and UNIQUE(nik) are enforced. *)
Definition insert_row (db_record : dict) (rows : World) : insert_outcome * World :=
  match find (fun c => match lookup db_record c with None => true | _ => false end)
             bound_columns with
  | Some c => (SqliteError ("You did not supply a value for binding parameter :" ++ c ++ "."),
               rows)
  | None =>
      if negb (forallb (fun c => bindable (get db_record c)) bound_columns)
      then (SqliteError "Error binding parameter: type is not supported", rows)
      else if existsb (fun c => is_none (get db_record c)) not_null_columns
           then (IntegrityError, rows)
           else if existsb (fun row => same_text (get row "nik") (get db_record "nik")) rows
                then (IntegrityError, rows)
                else (Inserted, rows ++ [db_record])
  end.

Definition select_nik (nik : pyval) (rows : World) : select_outcome * World :=
  if existsb (fun row => same_text (get row "nik") nik) rows
  then (RowFound, rows) else (NoRow, rows).

(** [str(v)] on the values of the examples (no float, no quote inside a
    string). *)
Fixpoint repr (v : pyval) : string :=
  match v with
  | PNone => "None"
  | PBool true => "True"
  | PBool false => "False"
  | PInt z => NilZero.string_of_int (Z.to_int z)
  | PFloat _ => "<float>"
  | PStr s => "'" ++ s ++ "'"
  | PList l => "[" ++ join ", " (map repr l) ++ "]"
  | PDict d =>
      "{" ++ join ", " (map (fun kv : string * pyval =>
                               let (k, x) := kv in ("'" ++ k ++ "': " ++ repr x)%string)
                            d) ++ "}"
  end.

Definition str (v : pyval) : string :=
  match v with
  | PStr s => s
  | _ => repr v
  end.

(** [ast.literal_eval] on the three strings the examples use: a
    dictionary literal, a text that does not parse, and a literal whose
    key is a list, which literal_eval rejects with a TypeError
    (unhashable type). *)
Definition eval_literal (s : string) : result pyval :=
  if String.eqb s "{'NIK': '1234567890123456'}"
  then Returns (PDict [("NIK", PStr "1234567890123456")])
  else if String.eqb s "{[]: 1}" then Raises TypeError
       else if String.eqb s "{bad" then Raises SyntaxError
            else Raises (ValueError "malformed node or string").

Definition message_of (e : exn) : string :=
  match e with
  | AttributeError msg | ValueError msg | RuntimeError msg => msg
  | GraphRecursionError =>
      "Recursion limit of 15 reached without hitting a stop condition."
  | TypeError => "unhashable type: 'list'"
  | UnboundLocalError => "local variable 'conn' referenced before assignment"
  | _ => "error"
  end.

(** The schema of each tool: the required argument and its type. *)
Definition check_args (tool : string) (args : dict) : result dict :=
  let need (k : string) (ok : pyval -> bool) :=
    if ok (get args k) then Returns args else Raises ValidationError in
  let is_str v := match v with PStr _ => true | _ => false end in
  let is_dict v := match v with PDict _ => true | _ => false end in
  if String.eqb tool "analyze_id_card_tool" then need "image_path" is_str
  else if String.eqb tool "check_duplicate_nik_tool" then need "nik" is_str
  else if String.eqb tool "insert_id_card_tool" then need "data" is_dict
  else need "reason" is_str.

(** A vision pipeline that accepts every image but ["blur.png"]. *)
Definition vision (params : dict) (rows : World) : pyval * World :=
  match get params "image_path" with
  | PStr "blur.png" =>
      (PDict [("status", PStr "image_quality_failure"); ("reason", PStr "Blur")], rows)
  | _ =>
      (PDict [("status", PStr "success");
              ("data", PDict [("NIK", PStr "1234567890123456")])], rows)
  end.

Definition mailer (params : dict) (rows : World) : pyval * World :=
  (PDict [("status", PStr "success");
          ("message", PStr ("Fraud notification for NIK "
                            ++ (if truthy (get params "nik")
                                then str (get params "nik") else "unknown")
                            ++ " sent."))], rows).

(** The environment, for a reasoning engine [llm]. *)
Definition env (llm : list Message -> result (string * list ToolCall)) : Env World :=
  {| literal_eval := eval_literal;
     py_str := str;
     exn_str := message_of;
     validate := check_args;
     llm_invoke := fun history rows => (llm history, rows);
     analyze_id_card := vision;
     notify_fraud := mailer;
     sqlite_insert := insert_row;
     sqlite_select := select_nik |}.

(** A reasoner that never answers: it asks for the analysis every time. *)
Definition always_calls (history : list Message) : result (string * list ToolCall) :=
  Returns ("", [ {| tc_name := "analyze_id_card_tool";
                    tc_args := Some [("image_path", PStr "uploads/ktp.png")];
                    tc_id := "call_1" |} ]).

(** A reasoner that follows the prompt for a good image: analysis,
    duplicate check, insert, report. *)
Definition complete_fields : dict :=
  [ ("NIK", PStr "1234567890123456");
    ("Nama", PStr "BUDI");
    ("Tempat/Tgl Lahir", PStr "JAKARTA, 01-01-1990");
    ("Jenis Kelamin", PStr "LAKI-LAKI");
    ("Gol. Darah", PStr "O");
    ("Alamat", PStr "JL. MERDEKA 1");
    ("RT/RW", PStr "001/002");
    ("Kel/Desa", PStr "MENTENG");
    ("Kecamatan", PStr "MENTENG");
    ("Agama", PStr "ISLAM");
    ("Status Perkawinan", PStr "KAWIN");
    ("Kewarganegaraan", PStr "WNI");
    ("Berlaku Hingga", PStr "SEUMUR HIDUP");
    ("Place and Date of Creation", PStr "JAKARTA 02-03-2015") ].

Definition call (tool id : string) (args : dict) : ToolCall :=
  {| tc_name := tool; tc_args := Some args; tc_id := id |}.

Definition obedient (history : list Message) : result (string * list ToolCall) :=
  match length history with
  | 1 => Returns ("", [call "analyze_id_card_tool" "c1" [("image_path", PStr "ktp.png")]])
  | 3 => Returns ("", [call "check_duplicate_nik_tool" "c2"
                            [("nik", PStr "1234567890123456")]])
  | 5 => Returns ("", [call "insert_id_card_tool" "c3" [("data", PDict complete_fields)]])
  | _ => Returns ("Data KTP berhasil disimpan.", [])
  end.

End Demo.

Example obedient_run :
  let o := upload_file (Demo.env Demo.obedient) "prompt" [] in
  response o = "Data KTP berhasil disimpan."
  /\ ran o = [Agent; Tools; Agent; Tools; Agent; Tools; Agent]
  /\ map (fun row => get row "nik") (world o) = [PStr "1234567890123456"].
Proof. vm_compute. repeat split. Qed.

Example complete_fields_record :
  map_record Demo.complete_fields =
  Record_ [ ("nik", PStr "1234567890123456"); ("nama", PStr "BUDI");
            ("jenis_kelamin", PStr "LAKI-LAKI"); ("gol_darah", PStr "O");
            ("alamat", PStr "JL. MERDEKA 1"); ("rt_rw", PStr "001/002");
            ("kel_desa", PStr "MENTENG"); ("kecamatan", PStr "MENTENG");
            ("agama", PStr "ISLAM"); ("status_perkawinan", PStr "KAWIN");
            ("kewarganegaraan", PStr "WNI"); ("berlaku_hingga", PStr "SEUMUR HIDUP");
            ("place_of_creation", PStr "JAKARTA"); ("tempat_lahir", PStr "JAKARTA");
            ("tanggal_lahir", PStr "01-01-1990"); ("date_of_creation", PStr "02-03-2015") ].
Proof. reflexivity. Qed.

(* ===================================================================== *)
(** ** Facts about strings and dictionaries *)
(* ===================================================================== *)

Section StringFacts.

Lemma split_not_nil (sep : ascii) (s : string) : split sep s <> [].
Proof.
  destruct s as [|c rest]; simpl; [discriminate|].
  destruct (Ascii.eqb c sep); [discriminate|].
  destruct (split sep rest); discriminate.
Qed.

(** The first piece is the text before the first separator, and the other
    pieces are those of the text after it. *)
Lemma split_first (sep : ascii) (s : string) :
  split sep s =
  before_first sep s ::
    (if contains sep s then split sep (after_first sep s) else []).
Proof.
  induction s as [|c rest IH]; simpl; [reflexivity|].
  destruct (Ascii.eqb c sep) eqn:E; simpl; [reflexivity|].
  rewrite IH. reflexivity.
Qed.

Lemma split_hd (sep : ascii) (s : string) :
  hd "" (split sep s) = before_first sep s.
Proof. rewrite split_first. reflexivity. Qed.

Lemma split_more (sep : ascii) (s : string) :
  (1 <? length (split sep s))%nat = contains sep s.
Proof.
  rewrite split_first. destruct (contains sep s); simpl; [|reflexivity].
  destruct (split sep (after_first sep s)) eqn:E; [|reflexivity].
  exfalso. exact (split_not_nil _ _ E).
Qed.

Lemma split_second (sep : ascii) (s : string) :
  contains sep s = true ->
  nth 1 (split sep s) "" = before_first sep (after_first sep s).
Proof.
  intros H. rewrite split_first, H. simpl.
  rewrite (split_first sep (after_first sep s)). reflexivity.
Qed.

Lemma truthy_str (s : string) : truthy (PStr s) = true <-> s <> "".
Proof.
  simpl. destruct (String.eqb_spec s ""); simpl; split; intros; congruence.
Qed.

End StringFacts.

Section DictFacts.

Lemma lookup_set_same (d : dict) (k : string) (v : pyval) :
  lookup (set d k v) k = Some v.
Proof.
  induction d as [|[k' v'] rest IH]; simpl.
  - rewrite String.eqb_refl. reflexivity.
  - destruct (String.eqb k' k) eqn:E; simpl.
    + rewrite String.eqb_refl. reflexivity.
    + rewrite E. exact IH.
Qed.

Lemma lookup_set_other (d : dict) (k k' : string) (v : pyval) :
  k <> k' -> lookup (set d k v) k' = lookup d k'.
Proof.
  intros Hne. induction d as [|[k0 v0] rest IH]; simpl.
  - destruct (String.eqb_spec k k'); [contradiction|reflexivity].
  - destruct (String.eqb_spec k0 k) as [->|Hk]; simpl.
    + destruct (String.eqb_spec k k'); [contradiction|reflexivity].
    + destruct (String.eqb k0 k'); [reflexivity|exact IH].
Qed.

Lemma get_set_same (d : dict) (k : string) (v : pyval) : get (set d k v) k = v.
Proof. unfold get. rewrite lookup_set_same. reflexivity. Qed.

Lemma get_set_other (d : dict) (k k' : string) (v : pyval) :
  k <> k' -> get (set d k v) k' = get d k'.
Proof. intros H. unfold get. rewrite lookup_set_other by exact H. reflexivity. Qed.

End DictFacts.

(** Rewrites a [get] or [lookup] through [set]s on literal keys. *)
Ltac dict_simpl :=
  repeat first
    [ rewrite get_set_same
    | rewrite lookup_set_same
    | rewrite get_set_other by (intro; discriminate)
    | rewrite lookup_set_other by (intro; discriminate) ].

(* ===================================================================== *)
(** ** The mapper: rename, split, validate *)
(* ===================================================================== *)

Section Mapper.

(** [rename] puts every mapped field under its column. *)
Lemma get_rename (data : dict) (ai_key db_key : string) :
  In (ai_key, db_key) key_mapping ->
  get (rename data) db_key = get data ai_key.
Proof.
  unfold rename, key_mapping. simpl fold_left.
  intros H. simpl in H.
  repeat (destruct H as [H|H];
          [injection H as <- <-; dict_simpl; reflexivity|]).
  contradiction.
Qed.

(** The two birth columns are not columns of [key_mapping]. *)
Lemma get_rename_birth (data : dict) :
  get (rename data) "tempat_lahir" = PNone
  /\ get (rename data) "tanggal_lahir" = PNone.
Proof.
  unfold rename, key_mapping. simpl fold_left. dict_simpl. split; reflexivity.
Qed.

(** What [split_birth] does with a text. *)
Lemma split_birth_text (data db_record : dict) (s : string) :
  lookup data "Tempat/Tgl Lahir" = Some (PStr s) ->
  s <> "" ->
  split_birth data db_record =
  Some (set (set db_record "tempat_lahir" (PStr (strip (before_first "," s))))
            "tanggal_lahir"
            (if contains "," s
             then PStr (strip (before_first "," (after_first "," s)))
             else PNone)).
Proof.
  intros Hl Hs. unfold split_birth. rewrite Hl.
  rewrite (proj2 (truthy_str s) Hs).
  rewrite split_more, split_hd.
  destruct (contains "," s) eqn:Hc; [|reflexivity].
  rewrite split_second by exact Hc. reflexivity.
Qed.

(** [split_creation] leaves every column alone but the two of the
    issuance field. *)
Lemma split_creation_keeps (db_record db_record' : dict) (k : string) :
  split_creation db_record = Returns db_record' ->
  k <> "place_of_creation" -> k <> "date_of_creation" ->
  get db_record' k = get db_record k.
Proof.
  unfold split_creation. intros H Hp Hd.
  destruct (get db_record "place_of_creation") eqn:Hv;
    try (destruct (truthy _); [discriminate|injection H as <-; reflexivity]).
  destruct (truthy (PStr s)); [|injection H as <-; reflexivity].
  destruct (1 <? length (split " " s))%nat; injection H as <-.
  - rewrite !get_set_other by congruence. reflexivity.
  - rewrite get_set_other by congruence. reflexivity.
Qed.

(** It raises exactly on a true value that is not a text. *)
Definition text_or_false (v : pyval) : Prop :=
  match v with
  | PStr _ => True
  | _ => truthy v = false
  end.

Lemma split_creation_returns (db_record : dict) :
  text_or_false (get db_record "place_of_creation") ->
  exists db_record', split_creation db_record = Returns db_record'.
Proof.
  unfold split_creation, text_or_false. intros H.
  destruct (get db_record "place_of_creation");
    try (rewrite H; eexists; reflexivity).
  destruct (truthy (PStr s)); [|eexists; reflexivity].
  destruct (1 <? length (split " " s))%nat; eexists; reflexivity.
Qed.

Lemma missing_keys_spec (db_record : dict) (k : string) :
  In k (missing_keys db_record) <->
  In k required_db_keys /\ truthy (get db_record k) = false.
Proof.
  unfold missing_keys. rewrite filter_In.
  destruct (truthy (get db_record k)); simpl; intuition congruence.
Qed.

(** Past the two splits, the tool either has nothing missing or returns
    the rejection, without touching the world. *)
Lemma gate_reject_aux {W : Type} (env : Env W) (data r1 db_record : dict) (w : W) :
  split_birth data (rename data) = Some r1 ->
  split_creation r1 = Returns db_record ->
  missing_keys db_record = []
  \/ DatabaseTools.insert_id_card_tool env data w =
     (Returns (error_payload (missing_message (missing_keys db_record))), w).
Proof.
  intros Hb Hc. unfold DatabaseTools.insert_id_card_tool, map_record.
  rewrite Hb, Hc.
  destruct (missing_keys db_record); [left|right]; reflexivity.
Qed.

End Mapper.

Section MapperClaims.

Lemma split_birth_keeps (data db_record db_record' : dict) (k : string) :
  split_birth data db_record = Some db_record' ->
  k <> "tempat_lahir" -> k <> "tanggal_lahir" ->
  get db_record' k = get db_record k.
Proof.
  unfold split_birth. intros H Ht Hd.
  destruct (lookup data "Tempat/Tgl Lahir") as [v|]; [|injection H as <-; reflexivity].
  destruct v;
    try (destruct (truthy _); [discriminate|injection H as <-; reflexivity]).
  destruct (truthy (PStr s)); [|injection H as <-; reflexivity].
  destruct (1 <? length (split "," s))%nat; injection H as <-;
    rewrite !get_set_other by congruence; reflexivity.
Qed.

(** The columns the specification lists as required: those of
    [required_db_keys] and the two of the issuance field. *)
Definition spec_required_columns : list string :=
  required_db_keys ++ ["place_of_creation"; "date_of_creation"].

(** An input that is complete but for the issuance date: the field ends
    in a space, so the date after it is empty. *)
Definition no_issuance_date : dict :=
  set Demo.complete_fields "Place and Date of Creation" (PStr "JAKARTA ").

(** C4, as stated, fails: the issuance date is a column of the set the
    claim requires, it is empty, and the record is inserted all the same,
    with no rejection. *)
Lemma gate_issuance_counterexample :
  let out := DatabaseTools.insert_id_card_tool (Demo.env Demo.obedient)
                                                no_issuance_date [] in
  In "date_of_creation" spec_required_columns
  /\ fst out = Returns [("status", PStr "success");
                        ("message",
                         PStr "Record for NIK 1234567890123456 added successfully.")]
  /\ map (fun row => get row "date_of_creation") (snd out) = [PStr ""].
Proof. vm_compute. intuition. Qed.

(** C4, amended: the gate is all-or-nothing on the thirteen columns of
    [required_db_keys] (identity number, name, birthplace, birth date, sex,
    address, RT/RW, sub-district, district, religion, marital status,
    citizenship, validity date); blood type, issuance place and issuance
    date are not required.  When the splits have produced [db_record]: the
    missing list is exactly the required columns whose value is missing or
    empty, in the order of [required_db_keys]; every renamed field but the
    issuance one holds what the input had; if the list is not empty the
    tool returns the rejection that names its columns and the world is
    untouched; if it is empty the record goes on to the insertion. *)
Theorem gate_all_or_nothing {W : Type} (env : Env W)
        (data r1 db_record : dict) (w : W) :
  split_birth data (rename data) = Some r1 ->
  split_creation r1 = Returns db_record ->
  missing_keys db_record =
  filter (fun key => negb (truthy (get db_record key))) required_db_keys
  /\ (forall k, In k (missing_keys db_record) <->
                In k required_db_keys /\ truthy (get db_record k) = false)
  /\ (forall ai_key db_key, In (ai_key, db_key) key_mapping ->
                            db_key <> "place_of_creation" ->
                            get db_record db_key = get data ai_key)
  /\ (missing_keys db_record <> [] ->
      DatabaseTools.insert_id_card_tool env data w =
      (Returns (error_payload (missing_message (missing_keys db_record))), w))
  /\ (missing_keys db_record = [] -> map_record data = Record_ db_record).
Proof.
  intros Hb Hc. split; [reflexivity|]. split; [|split; [|split]].
  - intros k. apply missing_keys_spec.
  - intros ai_key db_key Hin Hp.
    assert (Hk : db_key <> "date_of_creation"
                 /\ db_key <> "tempat_lahir" /\ db_key <> "tanggal_lahir").
    { simpl in Hin.
      repeat (destruct Hin as [Hin|Hin];
              [injection Hin as <- <-; repeat split; discriminate|]).
      contradiction. }
    destruct Hk as (Hd & Ht & Hg).
    rewrite (split_creation_keeps _ _ _ Hc Hp Hd).
    rewrite (split_birth_keeps _ _ _ _ Hb Ht Hg).
    apply get_rename. exact Hin.
  - intros Hm.
    destruct (gate_reject_aux env data r1 db_record w Hb Hc); [contradiction|assumption].
  - intros Hm. unfold map_record. rewrite Hb, Hc, Hm. reflexivity.
Qed.

(** The amended gate on an input without a name: one column is named, and
    no row is written. *)
Lemma gate_all_or_nothing_witness :
  let data := set Demo.complete_fields "Nama" (PStr "") in
  DatabaseTools.insert_id_card_tool (Demo.env Demo.obedient) data [] =
  (Returns (error_payload "After parsing, required fields are still missing: nama"), []).
Proof.
  intros data.
  destruct (gate_all_or_nothing (Demo.env Demo.obedient) data _ _ [] eq_refl eq_refl)
    as (_ & _ & _ & Hrej & _).
  apply Hrej. vm_compute. discriminate.
Defined.

(** C5, as stated: the birth date is the whole remainder after the first
    comma, and without a comma the birthplace is the whole string. *)
Definition birth_split_as_claimed : Prop :=
  forall (data db_record : dict) (s : string),
    lookup data "Tempat/Tgl Lahir" = Some (PStr s) -> s <> "" ->
    exists db_record',
      split_birth data db_record = Some db_record'
      /\ get db_record' "tempat_lahir" =
         PStr (if contains "," s then strip (before_first "," s) else s)
      /\ get db_record' "tanggal_lahir" =
         (if contains "," s then PStr (strip (after_first "," s)) else PNone).

(** It fails on a text with two commas: the birth date is only the text
    up to the second one. *)
Lemma birth_split_counterexample : ~ birth_split_as_claimed.
Proof.
  intros H.
  destruct (H [("Tempat/Tgl Lahir", PStr "JAKARTA, 01-01-1990, WIB")] []
              "JAKARTA, 01-01-1990, WIB" eq_refl ltac:(discriminate))
    as (r & Hr & _ & Hd).
  vm_compute in Hr. injection Hr as <-. vm_compute in Hd. discriminate Hd.
Qed.

(** And without a comma the birthplace is the trimmed text. *)
Example birth_split_trims :
  split_birth [("Tempat/Tgl Lahir", PStr " JAKARTA ")] [] =
  Some [("tempat_lahir", PStr "JAKARTA"); ("tanggal_lahir", PNone)].
Proof. reflexivity. Qed.

(** C5, amended: a non-empty text is split at its commas; the birthplace
    is the text before the first comma, trimmed (the whole text, trimmed,
    when there is no comma); the birth date is the text between the first
    comma and the second (the whole remainder when there is only one),
    trimmed, and None when there is no comma.  No other column changes and
    the split does not fail. *)
Theorem birth_split (data db_record : dict) (s : string) :
  lookup data "Tempat/Tgl Lahir" = Some (PStr s) -> s <> "" ->
  exists db_record',
    split_birth data db_record = Some db_record'
    /\ get db_record' "tempat_lahir" = PStr (strip (before_first "," s))
    /\ get db_record' "tanggal_lahir" =
       (if contains "," s
        then PStr (strip (before_first "," (after_first "," s)))
        else PNone)
    /\ forall k, k <> "tempat_lahir" -> k <> "tanggal_lahir" ->
                 get db_record' k = get db_record k.
Proof.
  intros Hl Hs. eexists. split; [apply split_birth_text; eassumption|].
  dict_simpl. repeat split.
  intros k Ht Hd. rewrite !get_set_other by congruence. reflexivity.
Qed.

Lemma birth_split_witness :
  exists db_record',
    split_birth [("Tempat/Tgl Lahir", PStr "Jakarta, 01-01-1990")] [] = Some db_record'
    /\ get db_record' "tempat_lahir" = PStr "Jakarta"
    /\ get db_record' "tanggal_lahir" = PStr "01-01-1990".
Proof.
  destruct (birth_split [("Tempat/Tgl Lahir", PStr "Jakarta, 01-01-1990")] []
                        "Jakarta, 01-01-1990" eq_refl ltac:(discriminate))
    as (r & Hr & Hp & Hd & _).
  exists r. repeat split; assumption.
Defined.

(** C10: an input whose birth field is a non-empty text without a comma
    (and whose issuance field, if any, is a text) is rejected, with
    tanggal_lahir among the missing columns, and the world is untouched:
    no insert is attempted. *)
Theorem comma_less_birth_rejected {W : Type} (env : Env W)
        (data : dict) (s : string) (w : W) :
  lookup data "Tempat/Tgl Lahir" = Some (PStr s) -> s <> "" ->
  contains "," s = false ->
  text_or_false (get data "Place and Date of Creation") ->
  exists missing,
    In "tanggal_lahir" missing
    /\ DatabaseTools.insert_id_card_tool env data w =
       (Returns (error_payload (missing_message missing)), w).
Proof.
  intros Hl Hs Hc Hp.
  pose proof (split_birth_text data (rename data) s Hl Hs) as Hb.
  rewrite Hc in Hb.
  set (r1 := set (set (rename data) "tempat_lahir" _) "tanggal_lahir" PNone) in Hb.
  assert (Hplace : get r1 "place_of_creation" = get data "Place and Date of Creation").
  { unfold r1. rewrite !get_set_other by discriminate.
    apply get_rename. simpl. tauto. }
  destruct (split_creation_returns r1) as [db_record Hcr].
  { rewrite Hplace. exact Hp. }
  assert (Hdate : get db_record "tanggal_lahir" = PNone).
  { rewrite (split_creation_keeps _ _ _ Hcr) by discriminate.
    unfold r1. apply get_set_same. }
  assert (Hin : In "tanggal_lahir" (missing_keys db_record)).
  { apply missing_keys_spec. split; [simpl; tauto|]. rewrite Hdate. reflexivity. }
  exists (missing_keys db_record). split; [exact Hin|].
  destruct (gate_reject_aux env data r1 db_record w Hb Hcr) as [H|H].
  - rewrite H in Hin. contradiction.
  - exact H.
Qed.

(** A complete input but for the comma of its birth field. *)
Lemma comma_less_birth_rejected_witness :
  exists missing,
    In "tanggal_lahir" missing
    /\ DatabaseTools.insert_id_card_tool
         (Demo.env Demo.obedient)
         (set Demo.complete_fields "Tempat/Tgl Lahir" (PStr "JAKARTA 01-01-1990")) [] =
       (Returns (error_payload (missing_message missing)), []).
Proof.
  apply (comma_less_birth_rejected
           (Demo.env Demo.obedient)
           (set Demo.complete_fields "Tempat/Tgl Lahir" (PStr "JAKARTA 01-01-1990"))
           "JAKARTA 01-01-1990" []).
  - reflexivity.
  - discriminate.
  - reflexivity.
  - exact I.
Defined.

End MapperClaims.

(* ===================================================================== *)
(** ** The router *)
(* ===================================================================== *)

Section Router.

Definition verdict_with (status : string) (more : dict) : pyval :=
  PDict (("status", PStr status) :: more).

Lemma router_success (ms : list Message) (more : dict) :
  router {| messages := ms; analysis_result := Some (verdict_with "success" more) |}
  = Returns "check_duplicate_nik_tool".
Proof. reflexivity. Qed.

Lemma router_potential_fraud (ms : list Message) (more : dict) :
  router {| messages := ms;
            analysis_result := Some (verdict_with "potential_fraud" more) |}
  = Returns "notify_fraud_tool".
Proof. reflexivity. Qed.

Lemma router_image_quality_failure (ms : list Message) (more : dict) :
  router {| messages := ms;
            analysis_result := Some (verdict_with "image_quality_failure" more) |}
  = Returns "notify_fraud_tool".
Proof. reflexivity. Qed.

(** The key is not in the state: the default [{}] is used. *)
Lemma router_key_absent (ms : list Message) :
  router {| messages := ms; analysis_result := None |} = Returns "agent".
Proof. reflexivity. Qed.

(** Any dictionary is routed: to one of three steps, and to ["agent"]
    unless its status is one of the three texts. *)
Lemma router_on_dict (ms : list Message) (d : dict) :
  exists next,
    router {| messages := ms; analysis_result := Some (PDict d) |} = Returns next
    /\ In next ["check_duplicate_nik_tool"; "notify_fraud_tool"; "agent"]
    /\ (get d "status" <> PStr "success" ->
        get d "status" <> PStr "potential_fraud" ->
        get d "status" <> PStr "image_quality_failure" ->
        next = "agent").
Proof.
  unfold router. simpl.
  destruct (get d "status") as [| | | |status| |];
    try (exists "agent"; simpl; tauto).
  destruct (String.eqb_spec status "success") as [->|H1].
  { eexists; split; [reflexivity|]. simpl. split; [tauto|congruence]. }
  destruct (String.eqb_spec status "potential_fraud") as [->|H2].
  { eexists; split; [reflexivity|]. simpl. split; [tauto|congruence]. }
  destruct (String.eqb_spec status "image_quality_failure") as [->|H3].
  { eexists; split; [reflexivity|]. simpl. split; [tauto|congruence]. }
  eexists; split; [reflexivity|]. simpl. tauto.
Qed.

(** C1: the state in which no verdict has been stored as the type of
    [AgentState] writes it, [analysis_result] holding Python's None.  The
    default of [state.get] is not used, since the key is there, and
    [None.get] raises: the router fails where the claim has it return the
    continue-loop step. *)
Theorem router_raises_on_none :
  router {| messages := []; analysis_result := Some PNone |}
  = Raises (AttributeError "'NoneType' object has no attribute 'get'").
Proof. reflexivity. Qed.

End Router.

(* ===================================================================== *)
(** ** The dispatch layer and the graph *)
(* ===================================================================== *)

Section Lists.

Context {A : Type}.

Lemma last_snoc (l : list A) (x : A) : last (map Some (l ++ [x])) None = Some x.
Proof.
  induction l as [|y l IH]; simpl; [reflexivity|].
  destruct (map Some (l ++ [x])) eqn:E; [|exact IH].
  destruct l; discriminate E.
Qed.

Lemma last_split (l : list A) (x : A) :
  last (map Some l) None = Some x -> l = removelast l ++ [x].
Proof.
  intros H. destruct l as [|y l] using rev_ind; [discriminate H|].
  rewrite last_snoc in H. injection H as ->.
  rewrite removelast_last. reflexivity.
Qed.

End Lists.

Section Graph.

Context {W : Type} (env : Env W).

(** The edge out of ["tools"] and the conditional edge out of ["agent"]. *)
Lemma step_tools_next (chan chan' : AgentState) (w w' : W) (upd : Update) (next : Node) :
  step env Tools chan w = (Returns (upd, next, chan'), w') -> next = Agent.
Proof.
  unfold step. destruct (tool_node env chan w) as [[[u|e] local] w0]; intros H.
  - injection H as _ <- _ _. reflexivity.
  - discriminate H.
Qed.

Lemma step_agent_next (chan chan' : AgentState) (w w' : W) (upd : Update) (next : Node) :
  step env Agent chan w = (Returns (upd, next, chan'), w') ->
  exists content calls,
    upd = {| upd_messages := Some [AIMessage content calls];
             upd_analysis_result := None |}
    /\ chan' = write chan upd
    /\ next = match calls with [] => END | _ => Tools end
    /\ fst (llm_invoke env (messages chan) w) = Returns (content, calls).
Proof.
  unfold step, agent_node.
  destruct (llm_invoke env (messages chan) w) as [[[content calls]|e] w0];
    [|discriminate].
  unfold after_agent, write, add_messages. simpl.
  rewrite last_snoc. intros H. exists content, calls.
  destruct calls; injection H as <- <- <- _; repeat split.
Qed.

(** No node returns the key [analysis_result], so the channel keeps the
    value it had. *)
Lemma tool_node_update (state local : AgentState) (w w' : W) (upd : Update) :
  tool_node env state w = (Returns upd, local, w') ->
  upd_analysis_result upd = None.
Proof.
  unfold tool_node.
  destruct (last (map Some (messages state)) None) as [[c|c calls|c i]|];
    try discriminate.
  destruct (outputs (dispatch env calls (analysis_result state) w));
    [|discriminate].
  intros H. injection H as <- _ _. reflexivity.
Qed.

Lemma step_keeps_analysis (node : Node) (chan chan' : AgentState) (w w' : W)
      (upd : Update) (next : Node) :
  step env node chan w = (Returns (upd, next, chan'), w') ->
  analysis_result chan' = analysis_result chan.
Proof.
  destruct node.
  - intros H. destruct (step_agent_next _ _ _ _ _ _ H) as (c & calls & -> & -> & _).
    reflexivity.
  - unfold step. destruct (tool_node env chan w) as [[[u|e] local] w0] eqn:E;
      [|discriminate].
    intros H. injection H as <- _ <- _.
    unfold write. simpl. rewrite (tool_node_update _ _ _ _ _ E). reflexivity.
  - simpl. intros H. injection H as _ _ <- _. reflexivity.
Qed.

End Graph.

Section RouterInTheGraph.

Definition analysis_call : ToolCall :=
  Demo.call "analyze_id_card_tool" "c1" [("image_path", PStr "ktp.png")].

Definition after_first_reply : AgentState :=
  {| messages := [HumanMessage "prompt"; AIMessage "" [analysis_call]];
     analysis_result := None |}.

(** C2, as stated: whenever the dispatching phase has left a verdict in
    the state it worked on, the node the graph runs next is the step the
    router returns for that state. *)
Definition router_decides_next {W : Type} (env : Env W) : Prop :=
  forall (chan local chan' : AgentState) (w w' : W) (upd : Update) (next : Node),
    tool_node env chan w = (Returns upd, local, w') ->
    step env Tools chan w = (Returns (upd, next, chan'), w') ->
    analysis_result local <> None ->
    router local = Returns (node_name next).

(** It fails once the analysis has succeeded: the router says
    check_duplicate_nik_tool, the graph goes to agent. *)
Lemma router_decides_next_counterexample :
  ~ router_decides_next (Demo.env Demo.obedient).
Proof.
  intros H.
  specialize (H after_first_reply _ _ [] _ _ _ eq_refl eq_refl).
  vm_compute in H. specialize (H ltac:(discriminate)). discriminate H.
Qed.

(** C2, amended: the compiled graph has the edges of [graph_builder]
    only.  After a dispatching phase the next node is always agent,
    whatever verdict the phase produced; after a reasoning phase it is
    tools when the reply carries tool calls and the end otherwise.  The
    router is not on any edge. *)
Theorem graph_edges {W : Type} (env : Env W) (node : Node)
        (chan chan' : AgentState) (w w' : W) (upd : Update) (next : Node) :
  step env node chan w = (Returns (upd, next, chan'), w') ->
  match node with
  | Tools => next = Agent
  | Agent =>
      exists content calls,
        upd_messages upd = Some [AIMessage content calls]
        /\ next = match calls with [] => END | _ => Tools end
  | END => next = END
  end.
Proof.
  destruct node; intros H.
  - destruct (step_agent_next _ _ _ _ _ _ _ H) as (c & calls & -> & _ & -> & _).
    exists c, calls. split; reflexivity.
  - exact (step_tools_next _ _ _ _ _ _ _ H).
  - simpl in H. injection H as _ <- _ _. reflexivity.
Qed.

Lemma graph_edges_witness :
  router {| messages := messages after_first_reply;
            analysis_result := Some (verdict_with "success" []) |}
  = Returns "check_duplicate_nik_tool"
  /\ exists upd next chan' w',
      step (Demo.env Demo.obedient) Tools after_first_reply [] =
      (Returns (upd, next, chan'), w')
      /\ next = Agent.
Proof.
  split; [reflexivity|].
  do 4 eexists. split; [vm_compute; reflexivity|].
  exact (graph_edges (Demo.env Demo.obedient) Tools after_first_reply _ [] _ _ _
                     eq_refl).
Defined.

(** C3: the analysis tool is dispatched and returns a verdict.  Inside
    [tool_node] the verdict is stored under [analysis_result] of the
    dictionary the node was called with, but the node returns only the key
    [messages], so the state of the graph after the step has no verdict:
    the field is still unset although an extraction step has completed. *)
Theorem analysis_not_captured :
  exists upd local chan',
    tool_node (Demo.env Demo.obedient) after_first_reply [] = (Returns upd, local, [])
    /\ analysis_result local =
       Some (verdict_with "success" [("data", PDict [("NIK", PStr "1234567890123456")])])
    /\ upd_analysis_result upd = None
    /\ step (Demo.env Demo.obedient) Tools after_first_reply [] =
       (Returns (upd, Agent, chan'), [])
    /\ analysis_result chan' = None.
Proof. do 3 eexists. vm_compute. repeat split. Qed.

End RouterInTheGraph.

Section Dispatch.

Context {W : Type} (env : Env W).

(** One turn of the loop of [tool_node], case by case. *)
Lemma dispatch_malformed (call : ToolCall) (rest : list ToolCall)
      (analysis : option pyval) (w : W) :
  repair env call = Malformed ->
  dispatch env (call :: rest) analysis w =
  emit (ToolMessage malformed_data_message (tc_id call)) call
       (dispatch env rest analysis w).
Proof. intros H. simpl. rewrite H. reflexivity. Qed.

Lemma dispatch_escaped (call : ToolCall) (rest : list ToolCall)
      (analysis : option pyval) (w : W) (e : exn) :
  repair env call = Escaped e ->
  dispatch env (call :: rest) analysis w = stop e (call :: rest) analysis w.
Proof. intros H. simpl. rewrite H. reflexivity. Qed.

Lemma dispatch_returned (call : ToolCall) (rest : list ToolCall)
      (analysis : option pyval) (w w' : W) (tool : Tool) (output : pyval) :
  repair env call = Untouched ->
  selected_tool env (tc_name call) = Some tool ->
  invoke tool (tool_args call) w = (Returns output, w') ->
  dispatch env (call :: rest) analysis w =
  emit (ToolMessage (py_str env output) (tc_id call)) call
       (dispatch env rest
                 (if String.eqb (tc_name call) "analyze_id_card_tool"
                  then Some output else analysis) w').
Proof. intros Hr Hs Hi. simpl. rewrite Hr, Hs, Hi. reflexivity. Qed.

Lemma dispatch_raised (call : ToolCall) (rest : list ToolCall)
      (analysis : option pyval) (w w' : W) (tool : Tool) (e : exn) :
  repair env call = Untouched ->
  selected_tool env (tc_name call) = Some tool ->
  invoke tool (tool_args call) w = (Raises e, w') ->
  dispatch env (call :: rest) analysis w = stop e (call :: rest) analysis w'.
Proof. intros Hr Hs Hi. simpl. rewrite Hr, Hs, Hi. reflexivity. Qed.

Lemma repair_parsed_inv (call : ToolCall) (v : pyval) :
  repair env call = Parsed v ->
  tc_name call = "insert_id_card_tool"
  /\ exists s, get (tool_args call) "data" = PStr s /\ literal_eval env s = Returns v.
Proof.
  unfold repair.
  destruct (String.eqb_spec (tc_name call) "insert_id_card_tool") as [Hn|];
    [|discriminate].
  destruct (get (tool_args call) "data") as [| | | |s| |]; try discriminate.
  destruct (literal_eval env s) as [v'|e] eqn:E.
  - intros H. injection H as <-. split; [exact Hn|]. exists s. split; [reflexivity|exact E].
  - destruct (value_or_syntax_error e); discriminate.
Qed.

Lemma repair_malformed_inv (call : ToolCall) :
  repair env call = Malformed ->
  tc_name call = "insert_id_card_tool"
  /\ exists s e, get (tool_args call) "data" = PStr s
                 /\ literal_eval env s = Raises e
                 /\ value_or_syntax_error e = true.
Proof.
  unfold repair.
  destruct (String.eqb_spec (tc_name call) "insert_id_card_tool") as [Hn|];
    [|discriminate].
  destruct (get (tool_args call) "data") as [| | | |s| |]; try discriminate.
  destruct (literal_eval env s) as [v'|e] eqn:E; [discriminate|].
  destruct (value_or_syntax_error e) eqn:Ev; [|discriminate].
  intros _. split; [exact Hn|]. exists s, e. repeat split; assumption.
Qed.

Lemma dispatch_parsed (call : ToolCall) (rest : list ToolCall)
      (analysis : option pyval) (w : W) (v : pyval) :
  repair env call = Parsed v ->
  dispatch env (call :: rest) analysis w =
  match invoke (Main.insert_id_card_tool env) (tool_args (set_data call v)) w with
  | (Raises e, w') => stop e (set_data call v :: rest) analysis w'
  | (Returns output, w') =>
      emit (ToolMessage (py_str env output) (tc_id call)) (set_data call v)
           (dispatch env rest analysis w')
  end.
Proof.
  intros H. destruct (repair_parsed_inv _ _ H) as (Hn & _).
  simpl. rewrite H. unfold selected_tool. simpl tc_name. rewrite Hn. simpl.
  reflexivity.
Qed.

End Dispatch.

Section DispatchClaims.

Context {W : Type} (env : Env W).

Lemma dispatch_not_found (call : ToolCall) (rest : list ToolCall)
      (analysis : option pyval) (w : W) :
  repair env call = Untouched ->
  selected_tool env (tc_name call) = None ->
  dispatch env (call :: rest) analysis w =
  stop (ValueError ("Tool '" ++ tc_name call ++ "' not found."))
       (call :: rest) analysis w.
Proof. intros Hr Hs. simpl. rewrite Hr, Hs. reflexivity. Qed.

(** A tool result answers a call when it carries the call's id. *)
Definition answers (call : ToolCall) (m : Message) : Prop :=
  exists content, m = ToolMessage content (tc_id call).

(** The only thing the loop writes into a call: the parsed value of a
    text [data] argument of an insert call. *)
Inductive rewritten : ToolCall -> ToolCall -> Prop :=
| Same (call : ToolCall) : rewritten call call
| Repaired (call : ToolCall) (s : string) (v : pyval) :
    tc_name call = "insert_id_card_tool" ->
    get (tool_args call) "data" = PStr s ->
    literal_eval env s = Returns v ->
    rewritten call (set_data call v).

(** Splits the goal on what the loop does with the first call. *)
Ltac first_call call rest analysis w :=
  let Hr := fresh "Hr" in
  let Hs := fresh "Hs" in
  let Hi := fresh "Hi" in
  destruct (repair env call) as [|v| |e] eqn:Hr;
  [ destruct (selected_tool env (tc_name call)) as [tool|] eqn:Hs;
    [ destruct (invoke tool (tool_args call) w) as [[output|e] w'] eqn:Hi;
      [ rewrite (dispatch_returned env call rest analysis w w' tool output Hr Hs Hi)
      | rewrite (dispatch_raised env call rest analysis w w' tool e Hr Hs Hi) ]
    | rewrite (dispatch_not_found call rest analysis w Hr Hs) ]
  | rewrite (dispatch_parsed env call rest analysis w v Hr);
    destruct (invoke (Main.insert_id_card_tool env) (tool_args (set_data call v)) w)
      as [[output|e] w']
  | rewrite (dispatch_malformed env call rest analysis w Hr)
  | rewrite (dispatch_escaped env call rest analysis w e Hr) ].

(** When the loop ends without an exception, there is one result per
    call, in the order of the calls, each with the id of its call. *)
Lemma dispatch_results (calls : list ToolCall) :
  forall (analysis : option pyval) (w : W) (ms : list Message),
    outputs (dispatch env calls analysis w) = Returns ms ->
    Forall2 answers calls ms.
Proof.
  induction calls as [|call rest IH]; intros analysis w ms.
  - simpl. intros H. injection H as <-. constructor.
  - first_call call rest analysis w; simpl; try discriminate.
    + destruct (outputs (dispatch env rest _ w')) as [ms'|] eqn:E; [|discriminate].
      intros H. injection H as <-. constructor; [eexists; reflexivity|].
      exact (IH _ _ _ E).
    + destruct (outputs (dispatch env rest analysis w')) as [ms'|] eqn:E; [|discriminate].
      intros H. injection H as <-. constructor; [eexists; reflexivity|].
      exact (IH _ _ _ E).
    + destruct (outputs (dispatch env rest analysis w)) as [ms'|] eqn:E; [|discriminate].
      intros H. injection H as <-. constructor; [eexists; reflexivity|].
      exact (IH _ _ _ E).
Qed.

(** The calls the loop leaves behind are the calls it was given, but for
    the repaired [data] arguments. *)
Lemma dispatch_rewrites (calls : list ToolCall) :
  forall (analysis : option pyval) (w : W),
    Forall2 rewritten calls (calls_after (dispatch env calls analysis w)).
Proof.
  assert (Hrefl : forall l, Forall2 rewritten l l).
  { induction l; constructor; [apply Same|assumption]. }
  induction calls as [|call rest IH]; intros analysis w.
  - constructor.
  - first_call call rest analysis w; simpl;
      try (constructor; [apply Same|]; solve [apply IH | apply Hrefl]).
    + destruct (repair_parsed_inv env _ _ Hr) as (Hn & s & Hd & Hl).
      constructor; [exact (Repaired call s v Hn Hd Hl)|apply IH].
    + destruct (repair_parsed_inv env _ _ Hr) as (Hn & s & Hd & Hl).
      constructor; [exact (Repaired call s v Hn Hd Hl)|apply Hrefl].
Qed.

End DispatchClaims.

Section BatchClaims.

Definition batch (calls : list ToolCall) : AgentState :=
  {| messages := [HumanMessage "prompt"; AIMessage "" calls];
     analysis_result := None |}.

Definition notify_call : ToolCall :=
  Demo.call "notify_fraud_tool" "c9" [("reason", PStr "Duplicate NIK found")].

Definition insert_text (id text : string) : ToolCall :=
  Demo.call "insert_id_card_tool" id [("data", PStr text)].

(** A text [data] that [ast.literal_eval] rejects with ValueError or
    SyntaxError is answered by the fixed error text, the tool is not
    invoked (the world is the same for the rest of the batch), and the
    loop goes on. *)
Lemma malformed_argument_reported {W : Type} (env : Env W)
      (call : ToolCall) (rest : list ToolCall) (analysis : option pyval) (w : W)
      (s : string) (e : exn) :
  tc_name call = "insert_id_card_tool" ->
  get (tool_args call) "data" = PStr s ->
  literal_eval env s = Raises e ->
  value_or_syntax_error e = true ->
  dispatch env (call :: rest) analysis w =
  emit (ToolMessage malformed_data_message (tc_id call)) call
       (dispatch env rest analysis w).
Proof.
  intros Hn Hd Hl He. apply dispatch_malformed.
  unfold repair. rewrite Hn, Hd, Hl, He. reflexivity.
Qed.

Example malformed_batch_continues :
  fst (fst (tool_node (Demo.env Demo.obedient)
                      (batch [insert_text "c3" "{bad"; notify_call]) [])) =
  Returns {| upd_messages :=
               Some [ToolMessage malformed_data_message "c3";
                     ToolMessage
                       "{'status': 'success', 'message': 'Fraud notification for NIK unknown sent.'}"
                       "c9"];
             upd_analysis_result := None |}.
Proof. reflexivity. Qed.

(** C6: a [data] text on which [ast.literal_eval] raises a TypeError (a
    dictionary literal whose key is a list).  The handler names ValueError
    and SyntaxError only, so the exception leaves [tool_node]: no result is
    synthesized and the second call of the batch is not processed. *)
Theorem repair_type_error_escapes :
  literal_eval (Demo.env Demo.obedient) "{[]: 1}" = Raises TypeError
  /\ tool_node (Demo.env Demo.obedient)
               (batch [insert_text "c3" "{[]: 1}"; notify_call]) [] =
     (Raises TypeError, batch [insert_text "c3" "{[]: 1}"; notify_call], []).
Proof. split; reflexivity. Qed.

(** C7, as stated: when every call of a batch names a tool of the
    registry, the dispatch layer returns results and no exception. *)
Definition dispatch_never_raises {W : Type} (env : Env W) : Prop :=
  forall (calls : list ToolCall) (analysis : option pyval) (w : W),
    Forall (fun call => selected_tool env (tc_name call) <> None) calls ->
    exists ms, outputs (dispatch env calls analysis w) = Returns ms.

(** An insert call whose issuance field is a number. *)
Definition numeric_issuance : ToolCall :=
  Demo.call "insert_id_card_tool" "c3"
            [("data", PDict (set Demo.complete_fields "Place and Date of Creation"
                                 (PInt 20150302)))].

(** It fails: the AttributeError of the persistence tool crosses the
    dispatch layer. *)
Lemma dispatch_never_raises_counterexample :
  ~ dispatch_never_raises (Demo.env Demo.obedient).
Proof.
  intros H. destruct (H [numeric_issuance] None []) as [ms Hms].
  - constructor; [|constructor]. vm_compute. discriminate.
  - vm_compute in Hms. discriminate Hms.
Qed.

(** C7, amended.  For the first call of a batch:
    - a text argument that does not parse (ValueError, SyntaxError) is
      caught in the dispatch layer and answered by a tool result, and the
      batch goes on;
    - a missing field at mapping time and a storage conflict are caught
      inside the persistence tool, which returns an error payload;
    - a payload that a tool returns is serialized into a tool result with
      the id of the call, and the batch goes on;
    - if the batch ends without an exception there is one result per call,
      in order, each with the id of its call;
    - the dispatch layer has no handler around the invocation: an
      exception a tool raises ends the batch and leaves [tool_node]. *)
Theorem dispatch_converts_or_propagates {W : Type} (env : Env W)
        (call : ToolCall) (rest : list ToolCall) (analysis : option pyval) (w : W) :
  (repair env call = Malformed ->
   dispatch env (call :: rest) analysis w =
   emit (ToolMessage malformed_data_message (tc_id call)) call
        (dispatch env rest analysis w))
  /\ (forall data payload,
         map_record data = Rejected payload ->
         DatabaseTools.insert_id_card_tool env data w = (Returns payload, w))
  /\ (forall data db_record w',
         map_record data = Record_ db_record ->
         sqlite_insert env db_record w = (IntegrityError, w') ->
         DatabaseTools.insert_id_card_tool env data w =
         (Returns (error_payload "This NIK already exists in the database."), w'))
  /\ (forall tool output w',
         repair env call = Untouched ->
         selected_tool env (tc_name call) = Some tool ->
         invoke tool (tool_args call) w = (Returns output, w') ->
         dispatch env (call :: rest) analysis w =
         emit (ToolMessage (py_str env output) (tc_id call)) call
              (dispatch env rest
                        (if String.eqb (tc_name call) "analyze_id_card_tool"
                         then Some output else analysis) w'))
  /\ (forall ms,
         outputs (dispatch env (call :: rest) analysis w) = Returns ms ->
         Forall2 answers (call :: rest) ms)
  /\ (forall tool e w',
         repair env call = Untouched ->
         selected_tool env (tc_name call) = Some tool ->
         invoke tool (tool_args call) w = (Raises e, w') ->
         outputs (dispatch env (call :: rest) analysis w) = Raises e).
Proof.
  split; [apply dispatch_malformed|].
  split.
  { intros data payload H. unfold DatabaseTools.insert_id_card_tool.
    rewrite H. reflexivity. }
  split.
  { intros data db_record w' H Hs. unfold DatabaseTools.insert_id_card_tool.
    rewrite H, Hs. reflexivity. }
  split; [intros tool output w' Hr Hs Hi;
          exact (dispatch_returned env call rest analysis w w' tool output Hr Hs Hi)|].
  split; [apply dispatch_results|].
  intros tool e w' Hr Hs Hi.
  rewrite (dispatch_raised env call rest analysis w w' tool e Hr Hs Hi).
  reflexivity.
Qed.

(** The last part at the call with the numeric issuance field, followed
    by a second call that is never reached. *)
Lemma dispatch_converts_or_propagates_witness :
  outputs (dispatch (Demo.env Demo.obedient) [numeric_issuance; notify_call] None [])
  = Raises (AttributeError "'int' object has no attribute 'split'").
Proof.
  destruct (dispatch_converts_or_propagates (Demo.env Demo.obedient)
              numeric_issuance [notify_call] None [])
    as (_ & _ & _ & _ & _ & Hraise).
  exact (Hraise (Main.insert_id_card_tool (Demo.env Demo.obedient))
                (AttributeError "'int' object has no attribute 'split'") []
                eq_refl eq_refl eq_refl).
Defined.

(** C9, as stated: after a step the history is the history before it,
    followed by new messages. *)
Definition append_only {W : Type} (env : Env W) : Prop :=
  forall (node next : Node) (chan chan' : AgentState) (w w' : W) (upd : Update),
    step env node chan w = (Returns (upd, next, chan'), w') ->
    exists new, messages chan' = messages chan ++ new.

(** It fails when [tool_node] repairs an argument: the value is written
    into the call, which is part of the last message of the history. *)
Lemma append_only_counterexample : ~ append_only (Demo.env Demo.obedient).
Proof.
  intros H.
  destruct (H Tools _ (batch [insert_text "c3" "{'NIK': '1234567890123456'}"])
              _ [] _ _ eq_refl) as [new Hnew].
  vm_compute in Hnew. discriminate Hnew.
Qed.

(** C9, amended: no step removes or reorders a message.  A reasoning step
    leaves the history as it is and appends the reply.  A dispatching step
    appends one tool result per call of the last message and leaves every
    earlier message as it is; in the last message itself it replaces the
    text [data] argument of an insert call by its parsed value, and changes
    nothing else. *)
Theorem history_grows {W : Type} (env : Env W) (node next : Node)
        (chan chan' : AgentState) (w w' : W) (upd : Update) :
  step env node chan w = (Returns (upd, next, chan'), w') ->
  match node with
  | Tools =>
      exists front content calls calls' new,
        messages chan = front ++ [AIMessage content calls]
        /\ messages chan' = front ++ [AIMessage content calls'] ++ new
        /\ Forall2 (rewritten env) calls calls'
        /\ Forall2 answers calls new
  | _ => exists new, messages chan' = messages chan ++ new
  end.
Proof.
  destruct node; intros H.
  - destruct (step_agent_next _ _ _ _ _ _ _ H) as (c & calls & -> & -> & _).
    eexists. reflexivity.
  - unfold step, tool_node in H.
    destruct (last (map Some (messages chan)) None) as [[c|c calls|c i]|] eqn:El;
      try discriminate H.
    destruct (outputs (dispatch env calls (analysis_result chan) w))
      as [new|e] eqn:Eo; [|discriminate H].
    injection H as _ _ <- _.
    exists (removelast (messages chan)), c, calls,
           (calls_after (dispatch env calls (analysis_result chan) w)), new.
    split; [exact (last_split _ _ El)|].
    split.
    { unfold write, add_messages, with_last_calls. simpl. rewrite El.
      rewrite <- app_assoc. reflexivity. }
    split; [apply dispatch_rewrites|].
    exact (dispatch_results env calls _ _ _ Eo).
  - simpl in H. injection H as _ _ <- _. exists []. rewrite app_nil_r. reflexivity.
Qed.

Lemma history_grows_witness :
  exists calls' new,
    messages (snd (fst (tool_node (Demo.env Demo.obedient)
                          (batch [insert_text "c3" "{'NIK': '1234567890123456'}"]) [])))
    = [HumanMessage "prompt"] ++ [AIMessage "" calls']
    /\ Forall2 (rewritten (Demo.env Demo.obedient))
               [insert_text "c3" "{'NIK': '1234567890123456'}"] calls'
    /\ Forall2 answers [insert_text "c3" "{'NIK': '1234567890123456'}"] new.
Proof.
  destruct (history_grows (Demo.env Demo.obedient) Tools Agent
              (batch [insert_text "c3" "{'NIK': '1234567890123456'}"]) _ [] _ _ eq_refl)
    as (front & content & calls & calls' & new & H1 & H2 & H3 & H4).
  change (messages (batch [insert_text "c3" "{'NIK': '1234567890123456'}"]))
    with ([HumanMessage "prompt"]
            ++ [AIMessage "" [insert_text "c3" "{'NIK': '1234567890123456'}"]]) in H1.
  apply app_inj_tail in H1. destruct H1 as [<- H1]. injection H1 as <- <-.
  exists calls', new. split; [|split; assumption].
  vm_compute in H2. injection H2 as <- _. reflexivity.
Defined.

End BatchClaims.

(* ===================================================================== *)
(** ** The loop of upload_file *)
(* ===================================================================== *)

Section Loop.

Context {W : Type} (env : Env W).

(** One more superstep of budget, away from the end of the graph. *)
Lemma stream_next (limit : nat) (node : Node) (chan : AgentState)
      (final_response : string) (w : W) :
  node <> END ->
  stream env (S limit) node chan final_response w =
  match step env node chan w with
  | (Returns (upd, next, chan'), w') =>
      ran_also node (stream env limit next chan' (on_event node upd final_response) w')
  | (Raises e, w') => ran_also node (failed env e w')
  end.
Proof. destruct node; [reflexivity|reflexivity|contradiction]. Qed.

(** The loop runs at most [limit] nodes. *)
Lemma stream_bounded (limit : nat) :
  forall (node : Node) (chan : AgentState) (final_response : string) (w : W),
    length (ran (stream env limit node chan final_response w)) <= limit.
Proof.
  induction limit as [|limit IH]; intros node chan final_response w.
  - destruct node; simpl; lia.
  - assert (Hstep : forall n,
               length (ran (match step env n chan w with
                            | (Returns (upd, next, chan'), w') =>
                                ran_also n (stream env limit next chan'
                                                   (on_event n upd final_response) w')
                            | (Raises e, w') => ran_also n (failed env e w')
                            end)) <= S limit).
    { intros n. destruct (step env n chan w) as [[[[upd next] chan']|e] w'].
      - simpl. specialize (IH next chan' (on_event n upd final_response) w'). lia.
      - simpl. lia. }
    destruct node; [exact (Hstep Agent)|exact (Hstep Tools)|simpl; lia].
Qed.

(** A reasoning engine that, whenever it answers, asks for tools. *)
Definition always_calls_tools : Prop :=
  forall (history : list Message) (w : W),
    match fst (llm_invoke env history w) with
    | Returns (_, calls) => calls <> []
    | Raises _ => True
    end.

Definition error_response (e : exn) : string := "An error occurred: " ++ exn_str env e.

(** With such an engine the loop never reaches the end of the graph: it
    leaves through the [except] clause. *)
Lemma stream_aborts (limit : nat) :
  always_calls_tools ->
  forall (node : Node) (chan : AgentState) (final_response : string) (w : W),
    node <> END ->
    exists e, response (stream env limit node chan final_response w) = error_response e.
Proof.
  intros Hllm. induction limit as [|limit IH]; intros node chan final_response w Hn.
  - destruct node; [| |contradiction]; exists GraphRecursionError; reflexivity.
  - rewrite (stream_next limit node chan final_response w Hn).
    destruct (step env node chan w) as [[[[upd next] chan']|e] w'] eqn:E;
      [|exists e; reflexivity].
    change (response (ran_also node
              (stream env limit next chan' (on_event node upd final_response) w')))
      with (response (stream env limit next chan' (on_event node upd final_response) w')).
    apply IH. destruct node; [| |contradiction].
    + destruct (step_agent_next _ _ _ _ _ _ _ E) as (c & calls & _ & _ & -> & Hr).
      specialize (Hllm (messages chan) w). rewrite Hr in Hllm.
      destruct calls; [contradiction|discriminate].
    + rewrite (step_tools_next _ _ _ _ _ _ _ E). discriminate.
Qed.

Lemma error_response_not_default (e : exn) : error_response e <> default_response.
Proof. unfold error_response, default_response. simpl. intros H. discriminate H. Qed.

End Loop.

Section LoopClaims.

Lemma always_calls_always : always_calls_tools (Demo.env Demo.always_calls).
Proof. intros history w. simpl. discriminate. Qed.

(** C8, as stated: with a reasoner that always emits tool calls, the
    response carries the diagnostic that no final response was produced,
    which in the code is [default_response]. *)
Definition budget_abort_as_claimed {W : Type} (env : Env W) : Prop :=
  always_calls_tools env ->
  forall (prompt : string) (w : W),
    response (upload_file env prompt w) = default_response.

(** The run on the reasoner that asks for the analysis every time. *)
Example always_calls_run :
  let o := upload_file (Demo.env Demo.always_calls) "prompt" [] in
  response o =
  "An error occurred: Recursion limit of 15 reached without hitting a stop condition."
  /\ ran o = [Agent; Tools; Agent; Tools; Agent; Tools; Agent; Tools;
              Agent; Tools; Agent; Tools; Agent; Tools; Agent].
Proof. vm_compute. split; reflexivity. Qed.

(** It fails: the response is the text of the [except] clause with the
    recursion error of the graph. *)
Lemma budget_abort_counterexample :
  ~ budget_abort_as_claimed (Demo.env Demo.always_calls).
Proof.
  intros H. specialize (H always_calls_always "prompt" []).
  vm_compute in H. discriminate H.
Qed.

(** The default text is what the caller gets when the graph ends on a
    reply that has neither tool calls nor content. *)
Example silent_reasoner :
  response (upload_file (Demo.env (fun _ => Returns ("", []))) "prompt" [])
  = default_response.
Proof. reflexivity. Qed.

(** C8, amended: for every reasoner and every world the loop ends after
    at most 15 supersteps, with a textual response.  With a reasoner that
    always emits tool calls the graph never reaches its end: the run is cut
    by an exception (the recursion-limit error of the graph once the budget
    is used up, or the exception of a step that failed before), which
    [upload_file] catches and returns as "An error occurred: " followed
    by the text of the exception; the response is then neither a reply of
    the reasoner nor the default text "Agent did not produce a final
    response.". *)
Theorem loop_bounded {W : Type} (env : Env W) (prompt : string) (w : W) :
  length (ran (upload_file env prompt w)) <= recursion_limit
  /\ (always_calls_tools env ->
      exists e,
        response (upload_file env prompt w) = error_response env e
        /\ response (upload_file env prompt w) <> default_response).
Proof.
  split; [apply stream_bounded|].
  intros Hllm.
  destruct (stream_aborts env recursion_limit Hllm Agent
              (write {| messages := []; analysis_result := None |}
                     {| upd_messages := Some [HumanMessage prompt];
                        upd_analysis_result := None |})
              default_response w ltac:(discriminate)) as [e He].
  exists e. split; [exact He|].
  unfold upload_file. rewrite He. apply error_response_not_default.
Qed.

Lemma loop_bounded_witness :
  exists e,
    response (upload_file (Demo.env Demo.always_calls) "prompt" []) =
    error_response (Demo.env Demo.always_calls) e
    /\ response (upload_file (Demo.env Demo.always_calls) "prompt" []) <> default_response.
Proof.
  exact (proj2 (loop_bounded (Demo.env Demo.always_calls) "prompt" [])
               always_calls_always).
Defined.

End LoopClaims.


(* ===================================================================== *)
(** ** More on strings: join, strip *)
(* ===================================================================== *)

Section MoreStringFacts.

(** Joining the pieces of a split with the separator gives the text back. *)
Lemma join_split (sep : ascii) (s : string) :
  join (String sep "") (split sep s) = s.
Proof.
  unfold join. induction s as [|c rest IH]; [reflexivity|].
  simpl split. destruct (Ascii.eqb_spec c sep) as [->|Hne].
  - destruct (split sep rest) as [|p ps] eqn:E; [exact (False_ind _ (split_not_nil _ _ E))|].
    simpl. simpl in IH. rewrite IH. reflexivity.
  - destruct (split sep rest) as [|p ps] eqn:E; [exact (False_ind _ (split_not_nil _ _ E))|].
    simpl. simpl in IH. destruct ps; simpl; rewrite <- IH; reflexivity.
Qed.

Lemma join_tail (sep : ascii) (s : string) :
  contains sep s = true ->
  join (String sep "") (tl (split sep s)) = after_first sep s.
Proof.
  intros H. rewrite split_first, H. simpl tl. apply join_split.
Qed.

Lemma before_first_whole (c : ascii) (s : string) :
  contains c s = false -> before_first c s = s.
Proof.
  induction s as [|c' rest IH]; simpl; [reflexivity|].
  destruct (Ascii.eqb c' c); simpl; [discriminate|].
  intros H. rewrite (IH H). reflexivity.
Qed.

Lemma before_first_clean (c : ascii) (s : string) :
  contains c (before_first c s) = false.
Proof.
  induction s as [|c' rest IH]; simpl; [reflexivity|].
  destruct (Ascii.eqb c' c) eqn:E; simpl; [reflexivity|].
  rewrite E. exact IH.
Qed.

Lemma before_first_app (c : ascii) (p t : string) :
  contains c p = false -> before_first c (p ++ String c t) = p.
Proof.
  induction p as [|c' rest IH]; simpl.
  - rewrite Ascii.eqb_refl. reflexivity.
  - destruct (Ascii.eqb c' c); simpl; [discriminate|].
    intros H. rewrite (IH H). reflexivity.
Qed.

Lemma after_first_app (c : ascii) (p t : string) :
  contains c p = false -> after_first c (p ++ String c t) = t.
Proof.
  induction p as [|c' rest IH]; simpl.
  - rewrite Ascii.eqb_refl. reflexivity.
  - destruct (Ascii.eqb c' c); simpl; [discriminate|exact IH].
Qed.

Lemma contains_app (c : ascii) (p t : string) :
  contains c (p ++ t) = contains c p || contains c t.
Proof.
  induction p as [|c' rest IH]; simpl; [reflexivity|].
  rewrite IH. apply orb_assoc.
Qed.

Lemma contains_lstrip (c : ascii) (s : string) :
  contains c s = false -> contains c (lstrip s) = false.
Proof.
  induction s as [|c' rest IH]; simpl; [reflexivity|].
  intros H. apply orb_false_iff in H. destruct H as [H1 H2].
  destruct (is_space c'); [exact (IH H2)|].
  simpl. rewrite H1, H2. reflexivity.
Qed.

Lemma contains_rstrip (c : ascii) (s : string) :
  contains c s = false -> contains c (rstrip s) = false.
Proof.
  induction s as [|c' rest IH]; simpl; [reflexivity|].
  intros H. apply orb_false_iff in H. destruct H as [H1 H2].
  specialize (IH H2).
  destruct (rstrip rest) as [|k ks].
  - destruct (is_space c'); simpl; [reflexivity|]. rewrite H1. reflexivity.
  - cbn [contains]. cbn [contains] in IH. rewrite H1. exact IH.
Qed.

Lemma contains_strip (c : ascii) (s : string) :
  contains c s = false -> contains c (strip s) = false.
Proof. intros H. apply contains_rstrip, contains_lstrip, H. Qed.

(** What [lstrip] returns is empty or starts with a character that is not
    white space. *)
Definition starts_clean (s : string) : Prop :=
  match s with
  | EmptyString => True
  | String c _ => is_space c = false
  end.

Lemma lstrip_starts_clean (s : string) : starts_clean (lstrip s).
Proof.
  induction s as [|c rest IH]; simpl; [exact I|].
  destruct (is_space c) eqn:E; [exact IH|exact E].
Qed.

Lemma rstrip_starts_clean (s : string) : starts_clean s -> starts_clean (rstrip s).
Proof.
  destruct s as [|c rest]; simpl; [trivial|].
  intros H. destruct (rstrip rest); [rewrite H|]; exact H.
Qed.

Lemma lstrip_clean (s : string) : starts_clean s -> lstrip s = s.
Proof. destruct s as [|c rest]; simpl; [reflexivity|]. intros ->. reflexivity. Qed.

Lemma rstrip_idempotent (s : string) : rstrip (rstrip s) = rstrip s.
Proof.
  induction s as [|c rest IH]; [reflexivity|].
  simpl. destruct (rstrip rest) as [|k ks] eqn:E.
  - destruct (is_space c) eqn:Ec; [reflexivity|]. simpl. rewrite Ec. reflexivity.
  - cbn [rstrip]. cbn [rstrip] in IH. rewrite IH. reflexivity.
Qed.

(** A stripped text is not changed by stripping it again. *)
Lemma strip_idempotent (s : string) : strip (strip s) = strip s.
Proof.
  unfold strip.
  rewrite (lstrip_clean (rstrip (lstrip s))).
  - apply rstrip_idempotent.
  - apply rstrip_starts_clean, lstrip_starts_clean.
Qed.

Lemma strip_after_space (s : string) : strip (String " " s) = strip s.
Proof. reflexivity. Qed.

End MoreStringFacts.

(* ===================================================================== *)
(** ** More on insert_id_card_tool *)
(* ===================================================================== *)

Section MoreMapper.

(** Past the two splits, a renamed field other than the issuance one holds
    what the input had. *)
Lemma mapped_field (data r1 db_record : dict) (ai_key db_key : string) :
  split_birth data (rename data) = Some r1 ->
  split_creation r1 = Returns db_record ->
  In (ai_key, db_key) key_mapping ->
  db_key <> "place_of_creation" ->
  get db_record db_key = get data ai_key.
Proof.
  intros Hb Hc Hin Hp.
  assert (Hk : db_key <> "date_of_creation"
               /\ db_key <> "tempat_lahir" /\ db_key <> "tanggal_lahir").
  { simpl in Hin.
    repeat (destruct Hin as [Hin|Hin];
            [injection Hin as <- <-; repeat split; discriminate|]).
    contradiction. }
  destruct Hk as (Hd & Ht & Hg).
  rewrite (split_creation_keeps _ _ _ Hc Hp Hd).
  rewrite (split_birth_keeps _ _ _ _ Hb Ht Hg).
  apply get_rename. exact Hin.
Qed.

Lemma nothing_missing (db_record : dict) :
  missing_keys db_record = [] <->
  forall k, In k required_db_keys -> truthy (get db_record k) = true.
Proof.
  split.
  - intros Hm k Hin. destruct (truthy (get db_record k)) eqn:E; [reflexivity|].
    assert (H : In k (missing_keys db_record)) by (apply missing_keys_spec; tauto).
    rewrite Hm in H. contradiction.
  - intros H. destruct (missing_keys db_record) as [|k ks] eqn:E; [reflexivity|].
    assert (Hin : In k (missing_keys db_record)) by (rewrite E; left; reflexivity).
    apply missing_keys_spec in Hin. destruct Hin as [Hin Hf].
    rewrite (H k Hin) in Hf. discriminate Hf.
Qed.

(** How [map_record] comes to a record. *)
Lemma map_record_inv (data db_record : dict) :
  map_record data = Record_ db_record ->
  exists r1, split_birth data (rename data) = Some r1
             /\ split_creation r1 = Returns db_record
             /\ missing_keys db_record = [].
Proof.
  unfold map_record.
  destruct (split_birth data (rename data)) as [r1|]; [|discriminate].
  destruct (split_creation r1) as [r|e] eqn:Hc; [|discriminate].
  destruct (missing_keys r) eqn:Hm; [|discriminate].
  intros H. injection H as <-. exists r1. repeat split; assumption.
Qed.

(** Every payload of a rejection has the status error. *)
Lemma rejected_is_error (data payload : dict) :
  map_record data = Rejected payload -> get payload "status" = PStr "error".
Proof.
  unfold map_record.
  destruct (split_birth data (rename data)) as [r1|];
    [|intros H; injection H as <-; reflexivity].
  destruct (split_creation r1) as [r|e]; [|discriminate].
  destruct (missing_keys r); [discriminate|].
  intros H. injection H as <-. reflexivity.
Qed.

(** The issuance field of a text: the place is the text before the first
    space, the date is the whole text after it, both trimmed; without a
    space the key date_of_creation is not written at all. *)
Theorem issuance_split (db_record : dict) (s : string) :
  get db_record "place_of_creation" = PStr s -> s <> "" ->
  exists db_record',
    split_creation db_record = Returns db_record'
    /\ get db_record' "place_of_creation" = PStr (strip (before_first " " s))
    /\ lookup db_record' "date_of_creation" =
       (if contains " " s
        then Some (PStr (strip (after_first " " s)))
        else lookup db_record "date_of_creation").
Proof.
  intros Hg Hs. unfold split_creation. rewrite Hg.
  rewrite (proj2 (truthy_str s) Hs).
  rewrite split_more, split_hd.
  destruct (contains " " s) eqn:Hc.
  - eexists. split; [reflexivity|]. dict_simpl.
    rewrite (join_tail " " s Hc). split; reflexivity.
  - eexists. split; [reflexivity|]. dict_simpl. split; reflexivity.
Qed.

Lemma issuance_split_witness :
  exists db_record',
    split_creation [("place_of_creation", PStr "KOTA BOGOR 02-03-2015")] = Returns db_record'
    /\ get db_record' "place_of_creation" = PStr "KOTA"
    /\ lookup db_record' "date_of_creation" = Some (PStr "BOGOR 02-03-2015").
Proof.
  exact (issuance_split [("place_of_creation", PStr "KOTA BOGOR 02-03-2015")]
                        "KOTA BOGOR 02-03-2015" eq_refl ltac:(discriminate)).
Defined.

(** The extraction fields whose columns are required, the birth field
    apart. *)
Definition fields_present (data : dict) : Prop :=
  forall ai_key db_key,
    In (ai_key, db_key) key_mapping -> In db_key required_db_keys ->
    truthy (get data ai_key) = true.

(** A birth field that gives both birth columns: a text with a comma, with
    something other than white space before it and after it. *)
Definition birth_complete (data : dict) : Prop :=
  exists s,
    lookup data "Tempat/Tgl Lahir" = Some (PStr s)
    /\ contains "," s = true
    /\ strip (before_first "," s) <> ""
    /\ strip (before_first "," (after_first "," s)) <> "".

Lemma required_column_source (db_key : string) :
  In db_key required_db_keys ->
  db_key = "tempat_lahir" \/ db_key = "tanggal_lahir"
  \/ (db_key <> "place_of_creation" /\ exists ai_key, In (ai_key, db_key) key_mapping).
Proof.
  intros H. simpl in H.
  repeat (destruct H as [<-|H];
          [first [ left; reflexivity
                 | right; left; reflexivity
                 | right; right; split; [discriminate|];
                   eexists; simpl; repeat (first [left; reflexivity|right]) ]|]).
  contradiction.
Qed.

(** When the issuance field is a text or empty, the input is accepted
    exactly when the eleven renamed required fields are there and the birth
    field gives both of its columns. *)
Theorem record_accepted_iff (data : dict) :
  text_or_false (get data "Place and Date of Creation") ->
  (exists db_record, map_record data = Record_ db_record)
  <-> fields_present data /\ birth_complete data.
Proof.
  intros Hp. split.
  - intros [r Hr]. destruct (map_record_inv _ _ Hr) as (r1 & Hb & Hc & Hm).
    pose proof (proj1 (nothing_missing r) Hm) as Hall.
    split.
    + intros ai_key db_key Hin Hreq.
      assert (Hne : db_key <> "place_of_creation").
      { intros ->. simpl in Hreq. intuition discriminate. }
      rewrite <- (mapped_field _ _ _ _ _ Hb Hc Hin Hne). apply Hall, Hreq.
    + assert (Ht : truthy (get r1 "tempat_lahir") = true).
      { rewrite <- (split_creation_keeps _ _ _ Hc) by discriminate.
        apply Hall. simpl. tauto. }
      assert (Hd : truthy (get r1 "tanggal_lahir") = true).
      { rewrite <- (split_creation_keeps _ _ _ Hc) by discriminate.
        apply Hall. simpl. tauto. }
      destruct (get_rename_birth data) as [Hn1 Hn2].
      destruct (lookup data "Tempat/Tgl Lahir") as [v|] eqn:Hl.
      * destruct (truthy v) eqn:Hv.
        -- destruct v; try (unfold split_birth in Hb; rewrite Hl, Hv in Hb; discriminate Hb).
           assert (Hs : s <> "") by (apply truthy_str; exact Hv).
           rewrite (split_birth_text _ _ _ Hl Hs) in Hb. injection Hb as <-.
           assert (Ht' : truthy (PStr (strip (before_first "," s))) = true) by exact Ht.
           assert (Hd' : truthy (if contains "," s
                                 then PStr (strip (before_first "," (after_first "," s)))
                                 else PNone) = true) by exact Hd.
           exists s. split; [exact Hl|].
           destruct (contains "," s); [|discriminate Hd'].
           split; [reflexivity|]. split; apply truthy_str; assumption.
        -- assert (r1 = rename data).
           { unfold split_birth in Hb. rewrite Hl in Hb.
             destruct v; rewrite ?Hv in Hb; congruence. }
           subst r1. rewrite Hn1 in Ht. discriminate Ht.
      * unfold split_birth in Hb. rewrite Hl in Hb. injection Hb as <-.
        rewrite Hn1 in Ht. discriminate Ht.
  - intros [Hf (s & Hl & Hc & Hplace & Hdate)].
    assert (Hs : s <> "").
    { intros ->. discriminate Hc. }
    pose proof (split_birth_text data (rename data) s Hl Hs) as Hb.
    rewrite Hc in Hb.
    set (r1 := set (set (rename data) "tempat_lahir" _) "tanggal_lahir" _) in Hb.
    destruct (split_creation_returns r1) as [r Hr].
    { unfold r1. rewrite !get_set_other by discriminate.
      rewrite (get_rename data "Place and Date of Creation" "place_of_creation")
        by (simpl; tauto).
      exact Hp. }
    exists r. unfold map_record. rewrite Hb, Hr.
    assert (Hm : missing_keys r = []).
    { apply nothing_missing. intros k Hk.
      destruct (required_column_source k Hk) as [->|[->|[Hne [ai Hin]]]].
      - rewrite (split_creation_keeps _ _ _ Hr) by discriminate.
        unfold r1. dict_simpl. apply truthy_str. exact Hplace.
      - rewrite (split_creation_keeps _ _ _ Hr) by discriminate.
        unfold r1. dict_simpl. apply truthy_str. exact Hdate.
      - rewrite (mapped_field _ _ _ _ _ Hb Hr Hin Hne). exact (Hf _ _ Hin Hk). }
    rewrite Hm. reflexivity.
Qed.

Lemma record_accepted_iff_witness :
  (exists db_record, map_record Demo.complete_fields = Record_ db_record)
  <-> fields_present Demo.complete_fields /\ birth_complete Demo.complete_fields.
Proof. exact (record_accepted_iff Demo.complete_fields I). Defined.

End MoreMapper.

Section MapperOutcomes.

Lemma split_birth_place (data r1 : dict) :
  split_birth data (rename data) = Some r1 ->
  get r1 "place_of_creation" = get data "Place and Date of Creation".
Proof.
  intros Hb. rewrite (split_birth_keeps _ _ _ _ Hb) by discriminate.
  apply get_rename. simpl. tauto.
Qed.


Lemma split_birth_false (data db_record : dict) :
  truthy (get data "Tempat/Tgl Lahir") = false ->
  split_birth data db_record = Some db_record.
Proof.
  unfold split_birth, get.
  destruct (lookup data "Tempat/Tgl Lahir") as [v|]; [|reflexivity].
  intros H. destruct v; rewrite ?H; reflexivity.
Qed.

(** A reply with status success means that a record was committed, and
    that every required column of that record has a value. *)
Theorem success_means_stored {W : Type} (env : Env W)
        (data payload : dict) (w w' : W) :
  DatabaseTools.insert_id_card_tool env data w = (Returns payload, w') ->
  get payload "status" = PStr "success" ->
  exists db_record,
    map_record data = Record_ db_record
    /\ sqlite_insert env db_record w = (Inserted, w')
    /\ forall k, In k required_db_keys -> truthy (get db_record k) = true.
Proof.
  unfold DatabaseTools.insert_id_card_tool.
  destruct (map_record data) as [r|p|e] eqn:Hm; [| |discriminate].
  - destruct (sqlite_insert env r w) as [[| |msg|msg] w0] eqn:Hs;
      intros H; try discriminate H; injection H as <- <-; intros Hst;
      try discriminate Hst.
    exists r. split; [reflexivity|]. split; [exact Hs|].
    destruct (map_record_inv _ _ Hm) as (r1 & _ & _ & Hnone).
    apply nothing_missing. exact Hnone.
  - intros H. injection H as <- <-. intros Hst.
    rewrite (rejected_is_error _ _ Hm) in Hst. discriminate Hst.
Qed.

Lemma success_means_stored_witness :
  exists db_record,
    map_record Demo.complete_fields = Record_ db_record
    /\ Demo.insert_row db_record [] = (Inserted, [db_record])
    /\ forall k, In k required_db_keys -> truthy (get db_record k) = true.
Proof.
  destruct (success_means_stored (Demo.env Demo.obedient) Demo.complete_fields
              _ [] _ eq_refl eq_refl) as (r & Hm & Hs & Hall).
  exists r. split; [exact Hm|]. split; [|exact Hall].
  vm_compute in Hm. injection Hm as <-. exact Hs.
Defined.

(** A birth field that is true but not a text (a number, a list, a
    dictionary) is answered by the parse error, whatever the other fields
    are, and the world is untouched. *)
Theorem birth_not_text_rejected {W : Type} (env : Env W)
        (data : dict) (v : pyval) (w : W) :
  lookup data "Tempat/Tgl Lahir" = Some v ->
  truthy v = true ->
  (forall s, v <> PStr s) ->
  DatabaseTools.insert_id_card_tool env data w =
  (Returns (error_payload "Failed to parse 'Tempat/Tgl Lahir' field."), w).
Proof.
  intros Hl Ht Hn. unfold DatabaseTools.insert_id_card_tool, map_record, split_birth.
  rewrite Hl. destruct v; rewrite ?Ht; try reflexivity.
  exfalso. exact (Hn s eq_refl).
Qed.

Lemma birth_not_text_rejected_witness :
  DatabaseTools.insert_id_card_tool
    (Demo.env Demo.obedient)
    (set Demo.complete_fields "Tempat/Tgl Lahir"
         (PDict [("tempat", PStr "JAKARTA"); ("tanggal", PStr "01-01-1990")])) [] =
  (Returns (error_payload "Failed to parse 'Tempat/Tgl Lahir' field."), []).
Proof.
  apply (birth_not_text_rejected (Demo.env Demo.obedient) _
           (PDict [("tempat", PStr "JAKARTA"); ("tanggal", PStr "01-01-1990")]) []).
  - reflexivity.
  - reflexivity.
  - intros s H. discriminate H.
Defined.

(** Without a birth field (absent, None or empty) the rejection names
    both birth columns. *)
Theorem birth_absent_names_both {W : Type} (env : Env W) (data : dict) (w : W) :
  truthy (get data "Tempat/Tgl Lahir") = false ->
  text_or_false (get data "Place and Date of Creation") ->
  exists missing,
    In "tempat_lahir" missing /\ In "tanggal_lahir" missing
    /\ DatabaseTools.insert_id_card_tool env data w =
       (Returns (error_payload (missing_message missing)), w).
Proof.
  intros Hf Hp.
  pose proof (split_birth_false data (rename data) Hf) as Hb.
  destruct (split_creation_returns (rename data)) as [r Hr].
  { rewrite (split_birth_place _ _ Hb). exact Hp. }
  destruct (get_rename_birth data) as [Hn1 Hn2].
  assert (H1 : In "tempat_lahir" (missing_keys r)).
  { apply missing_keys_spec. split; [simpl; tauto|].
    rewrite (split_creation_keeps _ _ _ Hr) by discriminate. rewrite Hn1. reflexivity. }
  assert (H2 : In "tanggal_lahir" (missing_keys r)).
  { apply missing_keys_spec. split; [simpl; tauto|].
    rewrite (split_creation_keeps _ _ _ Hr) by discriminate. rewrite Hn2. reflexivity. }
  exists (missing_keys r). split; [exact H1|]. split; [exact H2|].
  destruct (gate_reject_aux env data _ r w Hb Hr) as [H|H]; [|exact H].
  rewrite H in H1. contradiction.
Qed.

Lemma birth_absent_names_both_witness :
  exists missing,
    In "tempat_lahir" missing /\ In "tanggal_lahir" missing
    /\ DatabaseTools.insert_id_card_tool
         (Demo.env Demo.obedient) (set Demo.complete_fields "Tempat/Tgl Lahir" PNone) [] =
       (Returns (error_payload (missing_message missing)), []).
Proof.
  exact (birth_absent_names_both
           (Demo.env Demo.obedient)
           (set Demo.complete_fields "Tempat/Tgl Lahir" PNone) [] eq_refl I).
Defined.



End MapperOutcomes.

(* ===================================================================== *)
(** ** src/view_database.py *)
(* ===================================================================== *)

Module ViewDatabase.

(** The cell TTL of [view_id_cards]: the f-string
    [f"{record['tempat_lahir']}, {record['tanggal_lahir']}"]. *)
Definition ttl (record : dict) : string :=
  Demo.str (get record "tempat_lahir") ++ ", " ++ Demo.str (get record "tanggal_lahir").

End ViewDatabase.

Section BirthRoundTrip.

(** The birth columns of an accepted record, from the text of the input. *)
Lemma accepted_birth (data db_record : dict) :
  map_record data = Record_ db_record ->
  exists s,
    lookup data "Tempat/Tgl Lahir" = Some (PStr s)
    /\ contains "," s = true
    /\ get db_record "tempat_lahir" = PStr (strip (before_first "," s))
    /\ get db_record "tanggal_lahir" = PStr (strip (before_first "," (after_first "," s))).
Proof.
  intros Hr. destruct (map_record_inv _ _ Hr) as (r1 & Hb & Hc & Hm).
  pose proof (proj1 (nothing_missing db_record) Hm) as Hall.
  assert (Ht : truthy (get r1 "tempat_lahir") = true).
  { rewrite <- (split_creation_keeps _ _ _ Hc) by discriminate.
    apply Hall. simpl. tauto. }
  assert (Hd : truthy (get r1 "tanggal_lahir") = true).
  { rewrite <- (split_creation_keeps _ _ _ Hc) by discriminate.
    apply Hall. simpl. tauto. }
  rewrite (split_creation_keeps _ _ "tempat_lahir" Hc) by discriminate.
  rewrite (split_creation_keeps _ _ "tanggal_lahir" Hc) by discriminate.
  destruct (get_rename_birth data) as [Hn1 Hn2].
  destruct (truthy (get data "Tempat/Tgl Lahir")) eqn:Hv.
  - unfold get in Hv.
    destruct (lookup data "Tempat/Tgl Lahir") as [v|] eqn:Hl; [|discriminate Hv].
    destruct v; try (unfold split_birth in Hb; rewrite Hl, Hv in Hb; discriminate Hb).
    assert (Hs : s <> "") by (apply truthy_str; exact Hv).
    pose proof (split_birth_text data (rename data) s Hl Hs) as Hb'.
    rewrite Hb in Hb'.
    assert (Hr1 : r1 = set (set (rename data) "tempat_lahir"
                                (PStr (strip (before_first "," s))))
                           "tanggal_lahir"
                           (if contains "," s
                            then PStr (strip (before_first "," (after_first "," s)))
                            else PNone)) by congruence.
    clear Hb'. rewrite Hr1 in Ht, Hd |- *. revert Ht Hd. dict_simpl. intros Ht Hd.
    exists s. destruct (contains "," s); [|discriminate Hd].
    repeat split.
  - rewrite (split_birth_false _ _ Hv) in Hb. injection Hb as <-.
    rewrite Hn1 in Ht. discriminate Ht.
Qed.

(** Round trip with the viewer: the TTL cell that [view_id_cards] shows
    for a record the mapper has accepted, given back to the mapper as a
    birth field, yields the same birthplace and the same birth date. *)
Theorem ttl_round_trip (data db_record other : dict) :
  map_record data = Record_ db_record ->
  split_birth [("Tempat/Tgl Lahir", PStr (ViewDatabase.ttl db_record))] other =
  Some (set (set other "tempat_lahir" (get db_record "tempat_lahir"))
            "tanggal_lahir" (get db_record "tanggal_lahir")).
Proof.
  intros Hr. destruct (accepted_birth _ _ Hr) as (s & _ & _ & Hp & Hd).
  unfold ViewDatabase.ttl. rewrite Hp, Hd. simpl Demo.str.
  set (p := strip (before_first "," s)).
  set (d := strip (before_first "," (after_first "," s))).
  assert (Hcp : contains "," p = false) by apply contains_strip, before_first_clean.
  assert (Hcd : contains "," d = false) by apply contains_strip, before_first_clean.
  set (t := (p ++ String "," (String " " d))%string).
  change (split_birth [("Tempat/Tgl Lahir", PStr t)] other =
          Some (set (set other "tempat_lahir" (PStr p)) "tanggal_lahir" (PStr d))).
  assert (Hc : contains "," t = true).
  { unfold t. rewrite contains_app. simpl. apply orb_true_r. }
  rewrite (split_birth_text _ other t).
  - rewrite Hc. unfold t.
    rewrite (before_first_app _ _ _ Hcp), (after_first_app _ _ _ Hcp).
    rewrite (before_first_whole "," (String " " d)) by exact Hcd.
    rewrite strip_after_space. unfold p, d. rewrite !strip_idempotent. reflexivity.
  - reflexivity.
  - intros H. rewrite H in Hc. discriminate Hc.
Qed.

Lemma ttl_round_trip_witness :
  ViewDatabase.ttl [("tempat_lahir", PStr "JAKARTA"); ("tanggal_lahir", PStr "01-01-1990")]
  = "JAKARTA, 01-01-1990"
  /\ exists db_record,
      map_record Demo.complete_fields = Record_ db_record
      /\ split_birth [("Tempat/Tgl Lahir", PStr (ViewDatabase.ttl db_record))] [] =
         Some [("tempat_lahir", PStr "JAKARTA"); ("tanggal_lahir", PStr "01-01-1990")].
Proof.
  split; [reflexivity|].
  eexists. split; [reflexivity|].
  exact (ttl_round_trip Demo.complete_fields _ [] eq_refl).
Defined.

End BirthRoundTrip.

(* ===================================================================== *)
(** ** The two database tools on the table of database_setup.py *)
(* ===================================================================== *)

Section OnTheTable.

(** The identity numbers of the rows, those that are texts. *)
Definition text_niks (rows : Demo.World) : list string :=
  flat_map (fun row => match get row "nik" with PStr n => [n] | _ => [] end) rows.


Lemma stored_nik (rows : Demo.World) (n : string) :
  existsb (fun row => Demo.same_text (get row "nik") (PStr n)) rows = true
  <-> In n (text_niks rows).
Proof.
  induction rows as [|row rows IH]; simpl.
  - split; [discriminate|contradiction].
  - rewrite orb_true_iff, in_app_iff, IH.
    destruct (get row "nik") as [| | | |m| |]; simpl; try (intuition discriminate).
    destruct (String.eqb_spec m n); intuition congruence.
Qed.

(** What [insert_row] does to the table. *)
Lemma insert_row_rows (db_record : dict) (rows rows' : Demo.World) (o : insert_outcome) :
  Demo.insert_row db_record rows = (o, rows') ->
  (o = Inserted /\ rows' = rows ++ [db_record]
   /\ existsb (fun row => Demo.same_text (get row "nik") (get db_record "nik")) rows = false)
  \/ (o <> Inserted /\ rows' = rows).
Proof.
  unfold Demo.insert_row.
  destruct (find _ Demo.bound_columns).
  { intros H. injection H as <- <-. right. split; [discriminate|reflexivity]. }
  destruct (negb _).
  { intros H. injection H as <- <-. right. split; [discriminate|reflexivity]. }
  destruct (existsb _ Demo.not_null_columns).
  { intros H. injection H as <- <-. right. split; [discriminate|reflexivity]. }
  destruct (existsb _ rows) eqn:E; intros H; injection H as <- <-.
  - right. split; [discriminate|reflexivity].
  - left. repeat split.
Qed.

(** What the tool does to the table: nothing, or one more row, which is
    the record it has mapped and which the reply reports as a success. *)
Lemma tool_rows (llm : list Message -> result (string * list ToolCall))
      (data : dict) (rows rows' : Demo.World) (r : result dict) :
  DatabaseTools.insert_id_card_tool (Demo.env llm) data rows = (r, rows') ->
  (rows' = rows /\ forall payload, r = Returns payload -> get payload "status" = PStr "error")
  \/ (exists db_record payload,
         map_record data = Record_ db_record
         /\ r = Returns payload /\ get payload "status" = PStr "success"
         /\ rows' = rows ++ [db_record]
         /\ existsb (fun row => Demo.same_text (get row "nik") (get db_record "nik")) rows
            = false).
Proof.
  unfold DatabaseTools.insert_id_card_tool.
  destruct (map_record data) as [rec|p|e] eqn:Hm.
  - simpl sqlite_insert.
    destruct (Demo.insert_row rec rows) as [o rows0] eqn:Hi.
    destruct (insert_row_rows _ _ _ _ Hi) as [(-> & -> & Hn)|(Ho & ->)].
    + intros H. injection H as <- <-. right. exists rec. eexists.
      split; [reflexivity|]. split; [reflexivity|]. split; [reflexivity|].
      split; [reflexivity|exact Hn].
    + destruct o as [| |msg|msg]; [contradiction| | |];
        intros Hq; injection Hq as <- <-; left; (split; [reflexivity|]);
        intros payload Hp; try discriminate Hp; injection Hp as <-; reflexivity.
  - intros H. injection H as <- <-. left. split; [reflexivity|].
    intros payload Hp. injection Hp as <-. exact (rejected_is_error _ _ Hm).
  - intros H. injection H as <- <-. left. split; [reflexivity|]. discriminate.
Qed.

End OnTheTable.

Section KeysOfTheRecord.












End KeysOfTheRecord.

Section TableTheorems.

Variable llm : list Message -> result (string * list ToolCall).

(** Insert, then look up: once the insert tool has reported success for an
    input, the duplicate check finds the identity number of that input. *)
Theorem inserted_then_duplicate (data payload : dict) (rows rows' : Demo.World)
        (n : string) :
  DatabaseTools.insert_id_card_tool (Demo.env llm) data rows = (Returns payload, rows') ->
  get payload "status" = PStr "success" ->
  get data "NIK" = PStr n ->
  DatabaseTools.check_duplicate_nik_tool (Demo.env llm) (PStr n) rows' =
  (Returns [("status", PStr "duplicate"); ("nik", PStr n)], rows').
Proof.
  intros Ht Hs Hn.
  destruct (tool_rows llm _ _ _ _ Ht) as [(_ & He)|(rec & p & Hm & _ & _ & -> & _)].
  { rewrite (He payload eq_refl) in Hs. discriminate Hs. }
  destruct (map_record_inv _ _ Hm) as (r1 & Hb & Hc & _).
  assert (Hnik : get rec "nik" = PStr n).
  { rewrite (mapped_field data r1 rec "NIK" "nik" Hb Hc) by (simpl; tauto || discriminate).
    exact Hn. }
  unfold DatabaseTools.check_duplicate_nik_tool. simpl sqlite_select.
  unfold Demo.select_nik. rewrite existsb_app. simpl existsb.
  rewrite Hnik. simpl Demo.same_text. rewrite String.eqb_refl.
  rewrite !orb_true_r. reflexivity.
Qed.


(** An input whose identity number is already in the table is never
    stored: the table is left as it is and the reply, if there is one, is an
    error. *)
Theorem second_insert_refused (data : dict) (rows rows' : Demo.World)
        (r : result dict) (n : string) :
  In n (text_niks rows) ->
  get data "NIK" = PStr n ->
  DatabaseTools.insert_id_card_tool (Demo.env llm) data rows = (r, rows') ->
  rows' = rows
  /\ forall payload, r = Returns payload -> get payload "status" = PStr "error".
Proof.
  intros Hin Hn Ht.
  destruct (tool_rows llm _ _ _ _ Ht) as [H|(rec & p & Hm & _ & _ & _ & Hf)];
    [exact H|].
  destruct (map_record_inv _ _ Hm) as (r1 & Hb & Hc & _).
  rewrite (mapped_field data r1 rec "NIK" "nik" Hb Hc) in Hf
    by (simpl; tauto || discriminate).
  rewrite Hn in Hf. apply stored_nik in Hin. rewrite Hin in Hf. discriminate Hf.
Qed.


End TableTheorems.


Lemma inserted_then_duplicate_witness :
  DatabaseTools.check_duplicate_nik_tool
    (Demo.env Demo.obedient) (PStr "1234567890123456")
    (snd (DatabaseTools.insert_id_card_tool (Demo.env Demo.obedient)
                                            Demo.complete_fields [])) =
  (Returns [("status", PStr "duplicate"); ("nik", PStr "1234567890123456")],
   snd (DatabaseTools.insert_id_card_tool (Demo.env Demo.obedient)
                                          Demo.complete_fields [])).
Proof.
  exact (inserted_then_duplicate Demo.obedient Demo.complete_fields _ [] _
                                 "1234567890123456" eq_refl eq_refl eq_refl).
Defined.

Lemma second_insert_refused_witness :
  let rows := snd (DatabaseTools.insert_id_card_tool (Demo.env Demo.obedient)
                                                     Demo.complete_fields []) in
  DatabaseTools.insert_id_card_tool (Demo.env Demo.obedient) Demo.complete_fields rows =
  (Returns (error_payload "This NIK already exists in the database."), rows).
Proof.
  intros rows.
  destruct (second_insert_refused Demo.obedient Demo.complete_fields rows _ _
              "1234567890123456" ltac:(simpl; tauto) eq_refl eq_refl) as [_ _].
  reflexivity.
Defined.


(* ===================================================================== *)
(** ** More on the router and on tool_node *)
(* ===================================================================== *)

Section MoreRouter.

(** What the router answers, read backwards: it sends to the duplicate
    check exactly the dictionaries whose status is success, to the fraud
    notification exactly those whose status is potential_fraud or
    image_quality_failure, and it raises exactly when the state holds
    something that is not a dictionary. *)
Theorem router_routes (state : AgentState) :
  (router state = Returns "check_duplicate_nik_tool" <->
   exists d, analysis_result state = Some (PDict d) /\ get d "status" = PStr "success")
  /\ (router state = Returns "notify_fraud_tool" <->
      exists d, analysis_result state = Some (PDict d)
                /\ (get d "status" = PStr "potential_fraud"
                    \/ get d "status" = PStr "image_quality_failure"))
  /\ ((exists e, router state = Raises e) <->
      exists v, analysis_result state = Some v /\ forall d, v <> PDict d).
Proof.
  destruct state as [ms [v|]]; unfold router; simpl analysis_result.
  - destruct v as [|b|z|f|s|l|d];
      try (repeat split;
           [ discriminate
           | intros (d & H & _); discriminate H
           | discriminate
           | intros (d & H & _); discriminate H
           | intros _; eexists; split; [reflexivity|discriminate]
           | intros _; eexists; reflexivity ]).
    assert (Hno : ~ exists v, Some (PDict d) = Some v /\ forall d', v <> PDict d').
    { intros (v & Hv & Hn). injection Hv as <-. exact (Hn d eq_refl). }
    destruct (get d "status") as [| | | |status| |] eqn:Hs;
      try (repeat split;
           [ discriminate
           | intros (d' & Hd & H); injection Hd as <-; rewrite Hs in H; discriminate H
           | discriminate
           | intros (d' & Hd & [H|H]); injection Hd as <-; rewrite Hs in H; discriminate H
           | intros (e & He); discriminate He
           | intros H; contradiction ]).
    destruct (String.eqb_spec status "success") as [->|H1].
    { repeat split;
        [ intros _; exists d; split; [reflexivity|exact Hs]
        | discriminate
        | intros (d' & Hd & [H|H]); injection Hd as <-; rewrite Hs in H; discriminate H
        | intros (e & He); discriminate He
        | intros H; contradiction ]. }
    destruct (String.eqb_spec status "potential_fraud") as [->|H2].
    { repeat split;
        [ discriminate
        | intros (d' & Hd & H); injection Hd as <-; rewrite Hs in H; discriminate H
        | intros _; exists d; split; [reflexivity|left; exact Hs]
        | intros (e & He); discriminate He
        | intros H; contradiction ]. }
    destruct (String.eqb_spec status "image_quality_failure") as [->|H3].
    { repeat split;
        [ discriminate
        | intros (d' & Hd & H); injection Hd as <-; rewrite Hs in H; discriminate H
        | intros _; exists d; split; [reflexivity|right; exact Hs]
        | intros (e & He); discriminate He
        | intros H; contradiction ]. }
    simpl. repeat split;
      [ discriminate
      | intros (d' & Hd & H); injection Hd as <-; rewrite Hs in H; congruence
      | discriminate
      | intros (d' & Hd & [H|H]); injection Hd as <-; rewrite Hs in H; congruence
      | intros (e & He); discriminate He
      | intros H; contradiction ].
  - simpl. repeat split;
      [ discriminate
      | intros (d & H & _); discriminate H
      | discriminate
      | intros (d & H & _); discriminate H
      | intros (e & He); discriminate He
      | intros (v & H & _); discriminate H ].
Qed.

End MoreRouter.

Section MoreDispatch.

Context {W : Type} (env : Env W).

Definition registered : list string :=
  ["analyze_id_card_tool"; "check_duplicate_nik_tool"; "insert_id_card_tool";
   "notify_fraud_tool"].

Lemma selected_tool_registered (tool_name : string) :
  selected_tool env tool_name <> None <-> In tool_name registered.
Proof.
  unfold registered.
  change (selected_tool env tool_name) with
    (if String.eqb "analyze_id_card_tool" tool_name
     then Some (Main.analyze_id_card_tool env)
     else if String.eqb "check_duplicate_nik_tool" tool_name
          then Some (Main.check_duplicate_nik_tool env)
          else if String.eqb "insert_id_card_tool" tool_name
               then Some (Main.insert_id_card_tool env)
               else if String.eqb "notify_fraud_tool" tool_name
                    then Some (Main.notify_fraud_tool env)
                    else None).
  destruct (String.eqb_spec "analyze_id_card_tool" tool_name) as [<-|H1];
    [split; [simpl; tauto|discriminate]|].
  destruct (String.eqb_spec "check_duplicate_nik_tool" tool_name) as [<-|H2];
    [split; [simpl; tauto|discriminate]|].
  destruct (String.eqb_spec "insert_id_card_tool" tool_name) as [<-|H3];
    [split; [simpl; tauto|discriminate]|].
  destruct (String.eqb_spec "notify_fraud_tool" tool_name) as [<-|H4];
    [split; [simpl; tauto|discriminate]|].
  split; [intros H; exfalso; apply H; reflexivity|].
  intros [H|[H|[H|[H|[]]]]]; congruence.
Qed.

(** A call that names none of the four tools ends the batch with the
    ValueError of [tool_node]: nothing is invoked for it, and the calls
    after it are not processed. *)
Theorem unknown_tool_raises (call : ToolCall) (rest : list ToolCall)
        (analysis : option pyval) (w : W) :
  ~ In (tc_name call) registered ->
  dispatch env (call :: rest) analysis w =
  stop (ValueError ("Tool '" ++ tc_name call ++ "' not found."))
       (call :: rest) analysis w.
Proof.
  intros Hn. apply dispatch_not_found.
  - unfold repair. destruct (String.eqb_spec (tc_name call) "insert_id_card_tool") as [E|];
      [|reflexivity].
    exfalso. apply Hn. rewrite E. simpl. tauto.
  - destruct (selected_tool env (tc_name call)) eqn:E; [|reflexivity].
    exfalso. apply Hn, selected_tool_registered. rewrite E. discriminate.
Qed.

(** Splits the goal on what the loop does with the first call. *)
Ltac loop_head call rest analysis w Hr :=
  let Hs := fresh "Hs" in
  let Hi := fresh "Hi" in
  destruct (repair env call) as [|v| |e] eqn:Hr;
  [ destruct (selected_tool env (tc_name call)) as [tool|] eqn:Hs;
    [ destruct (invoke tool (tool_args call) w) as [[output|e] w'] eqn:Hi;
      [ rewrite (dispatch_returned env call rest analysis w w' tool output Hr Hs Hi)
      | rewrite (dispatch_raised env call rest analysis w w' tool e Hr Hs Hi) ]
    | rewrite (dispatch_not_found env call rest analysis w Hr Hs) ]
  | rewrite (dispatch_parsed env call rest analysis w v Hr);
    destruct (invoke (Main.insert_id_card_tool env) (tool_args (set_data call v)) w)
      as [[output|e] w']
  | rewrite (dispatch_malformed env call rest analysis w Hr)
  | rewrite (dispatch_escaped env call rest analysis w e Hr) ].

(** Only the analysis tool writes [analysis_result]: a batch without a
    call to it leaves the value of the state as it was, whatever the calls
    do. *)
Theorem analysis_only_from_analysis_tool (calls : list ToolCall) :
  Forall (fun call => tc_name call <> "analyze_id_card_tool") calls ->
  forall (analysis : option pyval) (w : W),
    analysis_after (dispatch env calls analysis w) = analysis.
Proof.
  induction 1 as [|call rest Hc Hrest IH]; intros analysis w; [reflexivity|].
  loop_head call rest analysis w Hr; simpl; try reflexivity; try apply IH.
  destruct (String.eqb_spec (tc_name call) "analyze_id_card_tool"); [contradiction|].
  apply IH.
Qed.

(** A call that the repair has nothing to do with: not an insert call, or
    one whose [data] is not a text. *)
Definition nothing_to_repair (call : ToolCall) : Prop :=
  tc_name call <> "insert_id_card_tool"
  \/ forall s, get (tool_args call) "data" <> PStr s.

Lemma calls_unchanged (calls : list ToolCall) :
  Forall nothing_to_repair calls ->
  forall (analysis : option pyval) (w : W),
    calls_after (dispatch env calls analysis w) = calls.
Proof.
  intros Hall analysis w.
  pose proof (dispatch_rewrites env calls analysis w) as H2.
  revert Hall. induction H2 as [|c c' l l' Hc Hl IH]; intros Hall; [reflexivity|].
  inversion Hall as [|? ? Hn Hrest]; subst.
  rewrite (IH Hrest). f_equal.
  destruct Hc as [call|call s v Hname Hdata _]; [reflexivity|].
  destruct Hn as [Hn|Hn]; [contradiction|]. exfalso. exact (Hn s Hdata).
Qed.

(** When no call of the last message needs a repair, a dispatching step
    leaves the whole prior history as it is and only appends. *)
Theorem plain_batch_appends (chan chan' : AgentState) (w w' : W)
        (upd : Update) (next : Node) (content : string) (calls : list ToolCall) :
  last (map Some (messages chan)) None = Some (AIMessage content calls) ->
  Forall nothing_to_repair calls ->
  step env Tools chan w = (Returns (upd, next, chan'), w') ->
  exists new, messages chan' = messages chan ++ new /\ Forall2 answers calls new.
Proof.
  intros Hl Hall H. unfold step, tool_node in H. rewrite Hl in H.
  destruct (outputs (dispatch env calls (analysis_result chan) w)) as [new|e] eqn:Eo;
    [|discriminate H].
  injection H as _ _ <- _. exists new. split.
  - unfold write, add_messages, with_last_calls. simpl. rewrite Hl.
    rewrite (calls_unchanged calls Hall). rewrite <- (last_split _ _ Hl). reflexivity.
  - exact (dispatch_results env calls _ _ _ Eo).
Qed.

End MoreDispatch.

Lemma unknown_tool_raises_witness :
  outputs (dispatch (Demo.env Demo.obedient)
                    [Demo.call "delete_record_tool" "c1" []; notify_call] None [])
  = Raises (ValueError "Tool 'delete_record_tool' not found.").
Proof.
  rewrite (unknown_tool_raises (Demo.env Demo.obedient)
             (Demo.call "delete_record_tool" "c1" []) [notify_call] None []).
  - reflexivity.
  - simpl. intuition discriminate.
Defined.

Lemma analysis_only_from_analysis_tool_witness :
  analysis_after (dispatch (Demo.env Demo.obedient) [notify_call]
                           (Some (verdict_with "success" [])) [])
  = Some (verdict_with "success" []).
Proof.
  apply (analysis_only_from_analysis_tool (Demo.env Demo.obedient) [notify_call]).
  repeat constructor. discriminate.
Defined.

Lemma plain_batch_appends_witness :
  exists new,
    messages (write {| messages := messages (batch [notify_call]);
                       analysis_result := None |}
                    {| upd_messages := Some new; upd_analysis_result := None |})
    = messages (batch [notify_call]) ++ new
    /\ Forall2 answers [notify_call] new.
Proof.
  assert (Hplain : Forall nothing_to_repair [notify_call]).
  { constructor; [left; discriminate|constructor]. }
  destruct (plain_batch_appends (Demo.env Demo.obedient) (batch [notify_call]) _ [] _ _ _
              "" [notify_call] eq_refl Hplain eq_refl) as (new & H1 & H2).
  exists new. split; [reflexivity|exact H2].
Defined.

Lemma malformed_argument_reported_witness :
  dispatch (Demo.env Demo.obedient) [insert_text "c3" "{bad"] None [] =
  emit (ToolMessage malformed_data_message "c3") (insert_text "c3" "{bad")
       (dispatch (Demo.env Demo.obedient) [] None []).
Proof.
  exact (malformed_argument_reported (Demo.env Demo.obedient) (insert_text "c3" "{bad")
           [] None [] "{bad" SyntaxError eq_refl eq_refl eq_refl eq_refl).
Defined.

(* ===================================================================== *)
(** ** More on the loop of upload_file *)
(* ===================================================================== *)

Section MoreLoop.

Context {W : Type} (env : Env W).

(** The nodes in the order the graph runs them from [node]. *)
Fixpoint alternating (n : nat) (node : Node) : list Node :=
  match n with
  | O => []
  | S n' => node :: alternating n' (match node with Agent => Tools | _ => Agent end)
  end.

Definition agent_runs (nodes : list Node) : nat :=
  length (filter (fun node => match node with Agent => true | _ => false end) nodes).

Definition tools_runs (nodes : list Node) : nat :=
  length (filter (fun node => match node with Tools => true | _ => false end) nodes).

Lemma stream_end (limit : nat) (chan : AgentState) (final_response : string) (w : W) :
  stream env limit END chan final_response w =
  {| response := final_response; ran := []; world := w |}.
Proof. destruct limit; reflexivity. Qed.

Lemma stream_alternates (limit : nat) :
  forall (node : Node) (chan : AgentState) (final_response : string) (w : W),
    node <> END ->
    ran (stream env limit node chan final_response w) =
    alternating (length (ran (stream env limit node chan final_response w))) node.
Proof.
  induction limit as [|limit IH]; intros node chan final_response w Hn.
  - destruct node; [reflexivity|reflexivity|contradiction].
  - rewrite (stream_next env limit node chan final_response w Hn).
    destruct (step env node chan w) as [[[[upd next] chan']|e] w'] eqn:E;
      [|reflexivity].
    cbn [ran ran_also length alternating]. f_equal.
    destruct node; [| |contradiction].
    + destruct (step_agent_next _ _ _ _ _ _ _ E) as (c & calls & _ & _ & -> & _).
      destruct calls; [rewrite stream_end; reflexivity|].
      apply IH. discriminate.
    + rewrite (step_tools_next _ _ _ _ _ _ _ E). apply IH. discriminate.
Qed.

(** The loop strictly alternates: reasoning first, then dispatching, then
    reasoning again, and so on until it stops. *)
Theorem nodes_alternate (prompt : string) (w : W) :
  ran (upload_file env prompt w) =
  alternating (length (ran (upload_file env prompt w))) Agent.
Proof. apply stream_alternates. discriminate. Qed.

Lemma alternating_counts (n : nat) :
  n <= 15 ->
  agent_runs (alternating n Agent) <= 8 /\ tools_runs (alternating n Agent) <= 7.
Proof.
  intros H. do 16 (destruct n as [|n]; [cbv; split; lia|]). lia.
Qed.

(** With the limit of 15 supersteps, one upload invokes the reasoning
    engine at most 8 times and runs at most 7 batches of tool calls. *)
Theorem reasoner_invoked_at_most_8 (prompt : string) (w : W) :
  agent_runs (ran (upload_file env prompt w)) <= 8
  /\ tools_runs (ran (upload_file env prompt w)) <= 7.
Proof.
  unfold upload_file.
  rewrite (stream_alternates recursion_limit Agent _ default_response w)
    by discriminate.
  apply alternating_counts. apply stream_bounded.
Qed.

Lemma stream_response (limit : nat) :
  forall (node : Node) (chan : AgentState) (final_response : string) (w : W),
    let o := stream env limit node chan final_response w in
    response o = final_response
    \/ (exists e, response o = error_response env e)
    \/ (exists history w0,
           fst (llm_invoke env history w0) = Returns (response o, [])
           /\ response o <> "").
Proof.
  induction limit as [|limit IH]; intros node chan final_response w.
  - destruct node; simpl; [right; left; eexists; reflexivity
                          |right; left; eexists; reflexivity|left; reflexivity].
  - cbv zeta. destruct node; [| |left; reflexivity].
    + rewrite (stream_next env limit Agent chan final_response w)
        by discriminate.
      destruct (step env Agent chan w) as [[[[upd next] chan']|e] w'] eqn:E;
        [|right; left; exists e; reflexivity].
      destruct (step_agent_next _ _ _ _ _ _ _ E) as (c & calls & -> & _ & _ & Hr).
      cbn [response ran_also].
      destruct (IH next chan'
                   (on_event Agent {| upd_messages := Some [AIMessage c calls];
                                      upd_analysis_result := None |} final_response) w')
        as [H|H]; [|right; exact H].
      rewrite H. unfold on_event. simpl.
      destruct calls; [|left; reflexivity].
      destruct (String.eqb_spec c "") as [->|Hc]; simpl; [left; reflexivity|].
      right. right. exists (messages chan), w. split; [exact Hr|exact Hc].
    + rewrite (stream_next env limit Tools chan final_response w)
        by discriminate.
      destruct (step env Tools chan w) as [[[[upd next] chan']|e] w'] eqn:E;
        [|right; left; exists e; reflexivity].
      cbn [response ran_also]. exact (IH next chan' final_response w').
Qed.

(** What the caller of [upload_file] gets is always one of three texts:
    a reply of the reasoning engine that has content and no tool calls, the
    text of the [except] clause, or the default text. *)
Theorem response_classified (prompt : string) (w : W) :
  response (upload_file env prompt w) = default_response
  \/ (exists e, response (upload_file env prompt w) = error_response env e)
  \/ (exists history w0,
         fst (llm_invoke env history w0) = Returns (response (upload_file env prompt w), [])
         /\ response (upload_file env prompt w) <> "").
Proof. apply stream_response. Qed.

End MoreLoop.

Lemma step_keeps_analysis_witness :
  exists upd next chan',
    step (Demo.env Demo.obedient) Tools after_first_reply [] =
    (Returns (upd, next, chan'), [])
    /\ analysis_result chan' = analysis_result after_first_reply.
Proof.
  do 3 eexists. split; [vm_compute; reflexivity|].
  exact (step_keeps_analysis (Demo.env Demo.obedient) Tools after_first_reply _ [] _ _ _
                             eq_refl).
Defined.

(* ===================================================================== *)
(** ** src/tools/analyze_id_card.py: the reply of the vision model *)
(* ===================================================================== *)

Module AnalyzeIdCard.

(** [s[7:-4]] on a text. *)
Definition slice_7_to_minus_4 (s : string) : string :=
  substring 7 (String.length s - 4 - 7) s.

(** The cleaning of the reply before [json.loads], on the stripped text:
    a reply that starts with the json fence loses its first seven and its
    last four characters and is stripped again. *)
Definition unfence (response_content : string) : string :=
  if prefix "```json" response_content
  then strip (slice_7_to_minus_4 response_content)
  else response_content.

(** What [json.loads] does with a text. *)
Inductive loaded : Type :=
| Loaded (v : pyval)
| JSONDecodeError
| OtherError (msg : string).

(** The last [try] block, from the reply of the model on. *)
Definition parse_response (json_loads : string -> loaded) (content : string) : pyval :=
  let response_content := unfence (strip content) in
  match json_loads response_content with
  | Loaded result => result
  | JSONDecodeError =>
      PDict [("status", PStr "error");
             ("error", PStr "Failed to parse the model's response as JSON.");
             ("raw_response", PStr response_content)]
  | OtherError msg => PDict [("status", PStr "error"); ("error", PStr msg)]
  end.

End AnalyzeIdCard.

Section Fence.

Lemma length_append (a b : string) :
  String.length (a ++ b) = String.length a + String.length b.
Proof. induction a as [|c a IH]; simpl; [reflexivity|]. rewrite IH. reflexivity. Qed.

Lemma substring_front (a b : string) : substring 0 (String.length a) (a ++ b) = a.
Proof. induction a as [|c a IH]; simpl; [destruct b; reflexivity|]. rewrite IH. reflexivity. Qed.

(** A fenced reply gives the text between the fence and its last four
    characters, stripped, whatever those four characters are: the closing
    fence with the line break before it, or the closing fence with the last
    character of the JSON text when there is no line break. *)
Theorem fence_removed (body tail : string) :
  String.length tail = 4 ->
  AnalyzeIdCard.unfence ("```json" ++ body ++ tail) = strip body.
Proof.
  intros Ht. unfold AnalyzeIdCard.unfence, AnalyzeIdCard.slice_7_to_minus_4.
  assert (Hp : prefix "```json" ("```json" ++ body ++ tail) = true).
  { simpl. destruct (body ++ tail)%string; reflexivity. }
  rewrite Hp.
  rewrite length_append, length_append, Ht.
  change (String.length "```json") with 7.
  replace (7 + (String.length body + 4) - 4 - 7) with (String.length body) by lia.
  change (substring 7 (String.length body) ("```json" ++ body ++ tail))
    with (substring 0 (String.length body) (body ++ tail)).
  rewrite substring_front. reflexivity.
Qed.

Lemma fence_removed_witness :
  AnalyzeIdCard.unfence ("```json" ++ String "010" "{'status': 'success'}"
                                   ++ String "010" "```")
  = "{'status': 'success'}"
  /\ AnalyzeIdCard.unfence "```json{}```" = "{".
Proof.
  split.
  - exact (fence_removed (String "010" "{'status': 'success'}") (String "010" "```")
                         eq_refl).
  - exact (fence_removed "{" "}```" eq_refl).
Defined.

End Fence.
